(** * j26-notifications: the fan-out and membership engine

    A shallow embedding of the request handlers of [src/app] (channels.py,
    subscriptions.py, notifications.py, firebase.py, heartbeats.py) over an
    explicit model of the four Postgres tables they use, followed by the
    properties of the handlers.

    Every table of the application is declared as
    [(id text PRIMARY KEY, data jsonb NOT NULL)], so a table is a finite map
    from the key column to the stored document; the documents are the
    dataclasses of the source. *)

From Stdlib Require Import Ascii String.
From stdpp Require Import base option list strings gmap fin_maps sorting pretty.

(** ** Documents (the dataclasses of the source) *)

Module Channel.
Record t := mk {
  id : string;
  name : string;
  tenant_id : string;
  description : option string;
  is_open : bool;
  is_private : bool;
  parent_id : option string;
  updated_at : string;
  updated_by : option string
}.
End Channel.

Module Tokens.
Record t := mk {
  id : string;
  tenant_id : string;
  device_tokens : list string;
  updated_at : string
}.
End Tokens.

Module Subscription.
Record t := mk {
  id : string;
  tenant_id : string;
  channel_id : string;
  user_id : string;
  created_at : string
}.
End Subscription.

Module Notification.
Record t := mk {
  tenant_id : string;
  channel_id : string;
  title : string;
  body : string;
  sent_by : string;
  id : string;
  sent_at : string
}.
End Notification.

(** ** Request and response models (the pydantic classes) *)

Module ChannelCreate.
Record t := mk {
  id : string;
  name : string;
  description : option string;
  is_open : bool;
  is_private : bool;
  parent_id : option string
}.
End ChannelCreate.

Module TokenCreate.
Record t := mk { device_tokens : list string }.
End TokenCreate.

Module SubscriptionRead.
Record t := mk {
  id : string;
  tenant_id : string;
  channel_id : string;
  user_id : string
}.
End SubscriptionRead.

Module NotificationCreate.
Record t := mk {
  channel_ids : list string;
  include_child_channels : bool;
  title : string;
  body : string
}.
End NotificationCreate.

Module DirectNotificationCreate.
Record t := mk {
  user_id : string;
  title : string;
  body : string
}.
End DirectNotificationCreate.

(** [AuthUser] is declared in authenctication.py, which is not part of the
    sources at hand; the handlers read two attributes of it. *)
Module AuthUser.
Record t := mk {
  preferred_username : string;
  subject : string
}.
End AuthUser.

(** config.py: the two settings the start-up code and the heartbeat loop
    read; both can be set from the environment. *)
Module Settings.
Record t := mk {
  DEFAULT_TENANT : string;
  DEFAULT_TENANT_NAME : string
}.
End Settings.

Definition default_settings : Settings.t :=
  Settings.mk "jamboree26" "J26 Notifications".

(** ** The state the handlers run in *)

(** The four tables. *)
Record Database := mkDatabase {
  channels : gmap string Channel.t;
  tokens : gmap string Tokens.t;
  subscriptions : gmap string Subscription.t;
  notifications : gmap string Notification.t
}.

(** The database, the multicast messages handed to Firebase so far (oldest
    first), and how many UUIDs and clock readings the process has drawn. *)
Record World := mkWorld {
  db : Database;
  outbox : list (list string * Notification.t);
  uuids_drawn : nat;
  clock_reads : nat
}.

(** What the Python runtime supplies and this development does not fix:
    the text of the n-th [uuid1()], the text of the n-th
    [datetime.now(timezone.utc)], and [str(user)] of the absent [AuthUser]
    class. *)
Record Runtime := mkRuntime {
  str_uuid1 : nat → string;
  str_now : nat → string;
  str_user : AuthUser.t → string
}.

Inductive error :=
  | HTTPException (status_code : nat) (detail : string)
  | RequestValidationError
  | UniqueViolationError
  | UntranslatableCharacterError
  | ValueError
  | UnboundLocalError.

Inductive outcome (A : Type) :=
  | Returned (a : A)
  | Raised (e : error).
Arguments Returned {A} a.
Arguments Raised {A} e.

(** A handler is a state transformer that returns or raises. Every
    [db_execute] commits on its own, so what was written before an
    exception stays written. *)
Definition M (A : Type) : Type := World → outcome A * World.

Definition ret {A} (a : A) : M A := λ w, (Returned a, w).
Definition raise {A} (e : error) : M A := λ w, (Raised e, w).
Definition bind {A B} (k : A → M B) (m : M A) : M B := λ w,
  match m w with
  | (Returned a, w') => k a w'
  | (Raised e, w') => (Raised e, w')
  end.

#[global] Instance M_ret : MRet M := @ret.
#[global] Instance M_bind : MBind M := @bind.

Definition get_db : M Database := λ w, (Returned (db w), w).
Definition put_db (d : Database) : M unit := λ w,
  (Returned tt, mkWorld d (outbox w) (uuids_drawn w) (clock_reads w)).

Definition set_channels (m : gmap string Channel.t) (d : Database) : Database :=
  mkDatabase m (tokens d) (subscriptions d) (notifications d).
Definition set_tokens (m : gmap string Tokens.t) (d : Database) : Database :=
  mkDatabase (channels d) m (subscriptions d) (notifications d).
Definition set_subscriptions (m : gmap string Subscription.t) (d : Database) : Database :=
  mkDatabase (channels d) (tokens d) m (notifications d).
Definition set_notifications (m : gmap string Notification.t) (d : Database) : Database :=
  mkDatabase (channels d) (tokens d) (subscriptions d) m.

(** ** db.py: the jsonb codec *)

(** Whether a character occurs in a string. *)
Fixpoint mentions (a : ascii) (s : string) : bool :=
  match s with
  | EmptyString => false
  | String b s' => bool_decide (a = b) || mentions a s'
  end.

(** The string holds no U+0000. *)
Definition no_nul (s : string) : bool := negb (mentions "000"%char s).

(** A document goes to its [jsonb] column through [json.dumps], and the
    column refuses a document with U+0000 in one of its strings. The ids of
    a document are matched against the id pattern or looked up in a table
    before the document is written, and its other generated strings are
    texts of the clock, of [uuid1], of the configuration and of the
    identity provider; [free_text] lists the strings that come from a
    request body as they are. *)
Class Document (V : Type) := free_text : V → list string.

#[global] Instance Channel_document : Document Channel.t :=
  λ c, Channel.name c :: option_list (Channel.description c).
#[global] Instance Tokens_document : Document Tokens.t := Tokens.device_tokens.
#[global] Instance Notification_document : Document Notification.t :=
  λ n, [Notification.title n; Notification.body n].

(** Whether the column takes the document. *)
Definition encodable {V} `{Document V} (v : V) : bool :=
  forallb no_nul (free_text v).
#[global] Arguments encodable : simpl never.

(** ** db.py: the statements the handlers issue *)

(** [SELECT data FROM t WHERE id = $1] through [db_fetchrow]. *)
Definition select_by_id {V} (k : string) (t : gmap string V) : option V := t !! k.

(** [SELECT data FROM t WHERE <condition on data>] through [db_fetch]; SQL
    fixes no row order here, the model lists rows in the order of the map. *)
Definition select_where {V} (P : V → bool) (t : gmap string V) : list V :=
  filter (λ v, P v = true) (snd <$> map_to_list t).

(** [SELECT data FROM t WHERE id = ANY($1)]: the rows whose key column is
    among the given ids, each row once. *)
Definition select_id_any {V} (ids : list string) (t : gmap string V) : list V :=
  snd <$> filter (λ kv, kv.1 ∈ ids) (map_to_list t).

(** [INSERT INTO t (id, data) VALUES ($1, $2)]: the document is decoded
    into the column when the statement is bound, which fails on U+0000;
    then the primary key rejects a second row with the same id. *)
Definition insert_row {V} `{Document V} (k : string) (v : V) (t : gmap string V)
    : outcome (gmap string V) :=
  if negb (encodable v) then Raised UntranslatableCharacterError else
  match t !! k with
  | Some _ => Raised UniqueViolationError
  | None => Returned (<[k := v]> t)
  end.

(** [INSERT ... ON CONFLICT (id) DO UPDATE SET data = EXCLUDED.data]. *)
Definition upsert_row {V} `{Document V} (k : string) (v : V) (t : gmap string V)
    : outcome (gmap string V) :=
  if negb (encodable v) then Raised UntranslatableCharacterError else
  Returned (<[k := v]> t).

(** [INSERT ... ON CONFLICT (id) DO NOTHING]; the only documents written
    this way are subscriptions, which hold no free text. *)
Definition insert_or_ignore {V} (k : string) (v : V) (t : gmap string V) : gmap string V :=
  match t !! k with
  | Some _ => t
  | None => <[k := v]> t
  end.

(** [DELETE FROM t WHERE id = $1]. *)
Definition delete_row {V} (k : string) (t : gmap string V) : gmap string V :=
  delete k t.

(** ** The runtime services *)

Section Handlers.
Context (rt : Runtime) (settings : Settings.t).

(** [str(uuid1())]. *)
Definition uuid1 : M string := λ w,
  (Returned (str_uuid1 rt (uuids_drawn w)),
   mkWorld (db w) (outbox w) (S (uuids_drawn w)) (clock_reads w)).

(** [str(datetime.now(timezone.utc))]. *)
Definition utcnow : M string := λ w,
  (Returned (str_now rt (clock_reads w)),
   mkWorld (db w) (outbox w) (uuids_drawn w) (S (clock_reads w))).

(** tenants.py: the admin check of the source answers yes to everybody. *)
Definition is_tenant_admin (tenant_id user_id : string) : M bool := mret true.

(** ** firebase.py *)

(** [messaging.MulticastMessage] takes at most 500 tokens. *)
Definition multicast_limit : nat := 500.

Definition over_limit (tokens : list string) : bool :=
  (multicast_limit <? length tokens)%nat.
#[global] Arguments over_limit : simpl never.

(** [firebase_send]: nothing is sent for an empty token list; building the
    multicast message raises [ValueError] for more than 500 tokens, before
    anything is sent; otherwise one multicast message goes out, whose
    per-token responses are dropped. *)
Definition firebase_send (tokens : list string) (notification : Notification.t) : M unit :=
  λ w,
  match tokens with
  | [] => (Returned tt, w)
  | _ :: _ =>
      if over_limit tokens then (Raised ValueError, w) else
      (Returned tt,
       mkWorld (db w) (outbox w ++ [(tokens, notification)]) (uuids_drawn w) (clock_reads w))
  end.

(** ** Python truth values and the id pattern *)

(** [if s:] on a string. *)
Definition truthy (s : string) : bool := negb (String.eqb s "").

(** One character of the class [[a-z0-9._-]]. *)
Definition slug_char (a : ascii) : bool :=
  let n := nat_of_ascii a in
  (((97 <=? n) && (n <=? 122)) || ((48 <=? n) && (n <=? 57))
   || (n =? 46) || (n =? 95) || (n =? 45))%nat.

Fixpoint all_slug_chars (s : string) : bool :=
  match s with
  | EmptyString => true
  | String a s' => slug_char a && all_slug_chars s'
  end.

(** The pattern [^[a-z0-9._-]+$] of [ChannelBase.id]. *)
Definition matches_id_pattern (s : string) : bool :=
  truthy s && all_slug_chars s.

(** What pydantic checks on a [ChannelCreate] body before the handler runs. *)
Definition ChannelCreate_validate (payload : ChannelCreate.t) : bool :=
  matches_id_pattern (ChannelCreate.id payload).

(** [Query(default=10, ge=1, le=50)]. *)
Definition limit_validate (limit : Z) : bool :=
  ((1 <=? limit) && (limit <=? 50))%Z.

Definition lift {A} (o : outcome A) : M A := λ w, (o, w).

(** ** channels.py *)

Definition channels_init : M unit :=
  d ← get_db;
  match select_by_id "heartbeat" (channels d) with
  | Some _ => mret tt
  | None =>
      now ← utcnow;
      let data := Channel.mk "heartbeat" "Heartbeat channel"
                    (Settings.DEFAULT_TENANT settings)
                    (Some "Sends heartbeats once a minute") true false None
                    now (Some "Init script") in
      t ← lift (insert_row (Channel.id data) data (channels d));
      put_db (set_channels t d)
  end.

Definition get_channel_id (channel_id : string) : M string :=
  d ← get_db;
  match select_by_id channel_id (channels d) with
  | None => raise (HTTPException 404 "Channel not found.")
  | Some _ => mret channel_id
  end.

Definition list_channels (include_private : bool) (tenant : string)
    (user : AuthUser.t) : M (list Channel.t) :=
  d ← get_db;
  mret (select_where (λ c, bool_decide (Channel.tenant_id c = tenant)) (channels d)).

Definition create_channel (payload : ChannelCreate.t) (tenant : string)
    (user : AuthUser.t) : M Channel.t :=
  if negb (ChannelCreate_validate payload) then raise RequestValidationError else
  admin ← is_tenant_admin tenant (AuthUser.preferred_username user);
  if negb admin then raise (HTTPException 403 "Admin privileges required.") else
  d ← get_db;
  match select_by_id (ChannelCreate.id payload) (channels d) with
  | Some _ =>
      raise (HTTPException 409
               ("Channel '" +:+ ChannelCreate.id payload +:+ "' already exists."))
  | None =>
      match ChannelCreate.parent_id payload with
      | Some p =>
          if truthy p then
            match select_by_id p (channels d) with
            | None => raise (HTTPException 404 "Parent channel not found.")
            | Some _ => mret tt
            end
          else mret tt
      | None => mret tt
      end;;
      now ← utcnow;
      let data := Channel.mk (ChannelCreate.id payload) (ChannelCreate.name payload)
                    tenant (ChannelCreate.description payload)
                    (ChannelCreate.is_open payload) (ChannelCreate.is_private payload)
                    (ChannelCreate.parent_id payload) now
                    (Some (AuthUser.subject user)) in
      t ← lift (insert_row (ChannelCreate.id payload) data (channels d));
      put_db (set_channels t d);;
      mret data
  end.

Definition delete_channel (channel_id tenant : string) (user : AuthUser.t) : M unit :=
  d ← get_db;
  match select_by_id channel_id (channels d) with
  | None => raise (HTTPException 404 "Channel not found.")
  | Some _ => put_db (set_channels (delete_row channel_id (channels d)) d)
  end.

(** ** subscriptions.py *)

Definition get_subscription_tokens (tenant channel : string) : M (list string) :=
  d ← get_db;
  let rows := select_where
                (λ s, bool_decide (Subscription.tenant_id s = tenant)
                      && bool_decide (Subscription.channel_id s = channel))
                (subscriptions d) in
  match rows with
  | [] => mret []
  | _ :: _ =>
      let user_id_list := (λ s, Subscription.user_id s +:+ ":" +:+ tenant) <$> rows in
      let rows := select_id_any user_id_list (tokens d) in
      mret (concat (Tokens.device_tokens <$> rows))
  end.

Definition get_user_tokens (tenant user_id : string) : M (list string) :=
  let token_id := user_id +:+ ":" +:+ tenant in
  d ← get_db;
  match select_by_id token_id (tokens d) with
  | Some row => mret (Tokens.device_tokens row)
  | None => mret []
  end.

(** [save_user_token]. Python fixes no order for [list(existing | new)];
    the model lists the union in the order of [elements]. *)
Definition save_user_token (payload : TokenCreate.t) (tenant : string)
    (user : AuthUser.t) : M unit :=
  let uid := AuthUser.preferred_username user in
  let token_id := uid +:+ ":" +:+ tenant in
  now ← utcnow;
  let data := Tokens.mk token_id tenant (TokenCreate.device_tokens payload) now in
  d ← get_db;
  match select_by_id token_id (tokens d) with
  | Some row =>
      let existing_tokens : gset string := list_to_set (Tokens.device_tokens row) in
      let new_tokens : gset string := list_to_set (TokenCreate.device_tokens payload) in
      if bool_decide (new_tokens ⊆ existing_tokens) then mret tt
      else
        let data := Tokens.mk token_id tenant (elements (existing_tokens ∪ new_tokens)) now in
        t ← lift (upsert_row token_id data (tokens d));
        put_db (set_tokens t d)
  | None =>
      t ← lift (upsert_row token_id data (tokens d));
      put_db (set_tokens t d)
  end.

Definition list_subscriptions (tenant : string) (user : AuthUser.t)
    : M (list Subscription.t) :=
  let uid := AuthUser.preferred_username user in
  d ← get_db;
  mret (select_where
          (λ s, bool_decide (Subscription.tenant_id s = tenant)
                && bool_decide (Subscription.user_id s = uid))
          (subscriptions d)).

Definition subscribe_to_channel (tenant channel : string) (user : AuthUser.t)
    : M Subscription.t :=
  let uid := AuthUser.preferred_username user in
  now ← utcnow;
  let data := Subscription.mk (uid +:+ "@" +:+ channel +:+ ":" +:+ tenant)
                tenant channel uid now in
  d ← get_db;
  put_db (set_subscriptions
            (insert_or_ignore (Subscription.id data) data (subscriptions d)) d);;
  mret data.

Definition unsubscribe_from_channel (tenant channel : string) (user : AuthUser.t)
    : M unit :=
  let uid := AuthUser.preferred_username user in
  d ← get_db;
  match select_where
          (λ s, bool_decide (Subscription.tenant_id s = tenant)
                && bool_decide (Subscription.channel_id s = channel)
                && bool_decide (Subscription.user_id s = uid))
          (subscriptions d) with
  | [] => raise (HTTPException 404 "Subscription not found.")
  | row :: _ =>
      put_db (set_subscriptions (delete_row (Subscription.id row) (subscriptions d)) d)
  end.

(** What [response_model=SubscriptionRead] keeps of a returned subscription. *)
Definition to_SubscriptionRead (s : Subscription.t) : SubscriptionRead.t :=
  SubscriptionRead.mk (Subscription.id s) (Subscription.tenant_id s)
    (Subscription.channel_id s) (Subscription.user_id s).

(** ** notifications.py *)

(** [Notification(...)]: the two default factories run in field order,
    [id] before [sent_at]. *)
Definition new_Notification (tenant_id channel_id title body sent_by : string)
    : M Notification.t :=
  id ← uuid1;
  sent_at ← utcnow;
  mret (Notification.mk tenant_id channel_id title body sent_by id sent_at).

Definition insert_notification (msg : Notification.t) : M unit :=
  d ← get_db;
  t ← lift (insert_row (Notification.id msg) msg (notifications d));
  put_db (set_notifications t d).

Definition send_notification (tenant channel : string) (msg : Notification.t)
    (save : bool) : M unit :=
  msg_tokens ← get_subscription_tokens tenant channel;
  match msg_tokens with
  | _ :: _ =>
      firebase_send msg_tokens msg;;
      if save then insert_notification msg else mret tt
  | [] => mret tt
  end.

Definition send_direct_notification (tenant : string) (msg_tokens : list string)
    (msg : Notification.t) (save : bool) : M unit :=
  match msg_tokens with
  | _ :: _ =>
      firebase_send msg_tokens msg;;
      if save then insert_notification msg else mret tt
  | [] => mret tt
  end.

(** [ORDER BY data->>'sent_at' DESC]: a row comes no later than every row
    whose [sent_at] text is not greater. *)
Definition newer_first (a b : Notification.t) : Prop :=
  String.le (Notification.sent_at b) (Notification.sent_at a).

#[global] Instance newer_first_dec : RelDecision newer_first.
Proof. intros a b. unfold newer_first. apply _. Defined.

(** [not channel_ids] for the optional [channel] query parameter. *)
Definition is_empty_query (channel_ids : option (list string)) : bool :=
  match channel_ids with
  | Some (_ :: _) => false
  | Some [] | None => true
  end.

Definition list_notifications (tenant : string) (channel_ids : option (list string))
    (limit : Z) (user : AuthUser.t) : M (list Notification.t) :=
  if negb (limit_validate limit) then raise RequestValidationError else
  d ← get_db;
  let channel_ids : list string :=
    if is_empty_query channel_ids then
      Subscription.channel_id <$>
        select_where
          (λ s, bool_decide (Subscription.tenant_id s = tenant)
                && bool_decide (Subscription.user_id s = AuthUser.preferred_username user))
          (subscriptions d)
    else default [] channel_ids in
  let channel_ids := channel_ids ++ [AuthUser.preferred_username user] in
  let rows := select_where
                (λ n, bool_decide (Notification.tenant_id n = tenant)
                      && bool_decide (Notification.channel_id n ∈ channel_ids))
                (notifications d) in
  mret (take (Z.to_nat limit) (merge_sort newer_first rows)).

(** The [for channel in payload.channel_ids] loop; [msg] is the loop's
    variable, still bound to the last message when the loop is over. *)
Fixpoint send_each (payload : NotificationCreate.t) (tenant : string)
    (user : AuthUser.t) (channel_ids : list string) (msg : option Notification.t)
    : M (option Notification.t) :=
  match channel_ids with
  | [] => mret msg
  | channel :: rest =>
      msg ← new_Notification tenant channel (NotificationCreate.title payload)
               (NotificationCreate.body payload) (str_user rt user);
      send_notification tenant channel msg true;;
      send_each payload tenant user rest (Some msg)
  end.

Definition send_notifications (payload : NotificationCreate.t) (tenant : string)
    (user : AuthUser.t) : M Notification.t :=
  match NotificationCreate.channel_ids payload with
  | [] => raise (HTTPException 400 "At least one channel id is required.")
  | _ :: _ =>
      admin ← is_tenant_admin tenant (AuthUser.preferred_username user);
      if negb admin then raise (HTTPException 403 "Admin privileges required.") else
      msg ← send_each payload tenant user (NotificationCreate.channel_ids payload) None;
      match msg with
      | Some msg => mret msg
      | None => raise UnboundLocalError
      end
  end.

Definition send_direct_notifications (payload : DirectNotificationCreate.t)
    (tenant : string) (user : AuthUser.t) : M Notification.t :=
  if negb (truthy (DirectNotificationCreate.user_id payload)) then
    raise (HTTPException 400 "A user id is required.")
  else
  admin ← is_tenant_admin tenant (AuthUser.preferred_username user);
  if negb admin then raise (HTTPException 403 "Admin privileges required.") else
  user_tokens ← get_user_tokens tenant (DirectNotificationCreate.user_id payload);
  match user_tokens with
  | [] => raise (HTTPException 428 "User notification registration required.")
  | _ :: _ =>
      msg ← new_Notification tenant (DirectNotificationCreate.user_id payload)
               (DirectNotificationCreate.title payload)
               (DirectNotificationCreate.body payload) (str_user rt user);
      firebase_send user_tokens msg;;
      insert_notification msg;;
      mret msg
  end.

(** ** heartbeats.py *)

(** One turn of the [while True] loop (the sleep and the log line left
    out): the body text reads the clock before the message is built. *)
Definition heartbeat : M unit :=
  now ← utcnow;
  msg ← new_Notification (Settings.DEFAULT_TENANT settings) "heartbeat" "HeartBeat"
           ("Aktuell tid: " +:+ now) "Heartbeat loop";
  send_notification (Settings.DEFAULT_TENANT settings) "heartbeat" msg false.

(** The first [turns] turns of [heartbeats_loop], which never returns by
    itself. *)
Fixpoint heartbeats_loop (turns : nat) : M unit :=
  match turns with
  | O => mret tt
  | S turns' => heartbeat;; heartbeats_loop turns'
  end.

End Handlers.

(** ** What the handlers resolve, as functions of the database *)

(** The token batch [get_subscription_tokens] resolves for one channel. *)
Definition channel_tokens (d : Database) (tenant channel : string) : list string :=
  match select_where
          (λ s, bool_decide (Subscription.tenant_id s = tenant)
                && bool_decide (Subscription.channel_id s = channel))
          (subscriptions d) with
  | [] => []
  | s :: rows =>
      concat (Tokens.device_tokens <$>
                select_id_any
                  ((λ s, Subscription.user_id s +:+ ":" +:+ tenant) <$> (s :: rows))
                  (tokens d))
  end.

(** The registered tokens of a user, as a set; empty without a record. *)
Definition token_set (d : Database) (tenant user_id : string) : gset string :=
  match tokens d !! (user_id +:+ ":" +:+ tenant) with
  | Some row => list_to_set (Tokens.device_tokens row)
  | None => ∅
  end.

(** The message the request loop builds for a target when [u] UUIDs and
    [t] clock readings were drawn before. *)
Definition loop_message (rt : Runtime) (payload : NotificationCreate.t)
    (tenant : string) (user : AuthUser.t) (u t : nat) (channel : string)
    : Notification.t :=
  Notification.mk tenant channel (NotificationCreate.title payload)
    (NotificationCreate.body payload) (str_user rt user)
    (str_uuid1 rt u) (str_now rt t).

(** The multicast messages the request loop hands to Firebase when no
    push and no write fails, target by target: one per target whose batch
    is not empty. *)
Fixpoint dispatches (rt : Runtime) (payload : NotificationCreate.t)
    (tenant : string) (user : AuthUser.t) (d : Database) (u t : nat)
    (channel_ids : list string) : list (list string * Notification.t) :=
  match channel_ids with
  | [] => []
  | channel :: rest =>
      match channel_tokens d tenant channel with
      | [] => []
      | tok :: toks => [(tok :: toks, loop_message rt payload tenant user u t channel)]
      end ++ dispatches rt payload tenant user d (S u) (S t) rest
  end.

(** The message the loop variable [msg] is bound to after the loop. *)
Fixpoint last_message (rt : Runtime) (payload : NotificationCreate.t)
    (tenant : string) (user : AuthUser.t) (u t : nat) (channel_ids : list string)
    (msg : option Notification.t) : option Notification.t :=
  match channel_ids with
  | [] => msg
  | channel :: rest =>
      last_message rt payload tenant user (S u) (S t) rest
        (Some (loop_message rt payload tenant user u t channel))
  end.

(** Every target's batch fits one multicast message. *)
Definition batches_fit (d : Database) (tenant : string)
    (channel_ids : list string) : bool :=
  forallb (λ c, negb (over_limit (channel_tokens d tenant c))) channel_ids.

(** What sending can raise: too large a batch, a UUID that is taken, a
    title or body the column refuses. *)
Definition send_failure (e : error) : Prop :=
  e = ValueError ∨ e = UniqueViolationError ∨ e = UntranslatableCharacterError.

(** Inserting the dispatched messages into the notifications table. *)
Definition record_all (ms : list (list string * Notification.t))
    (t : gmap string Notification.t) : gmap string Notification.t :=
  foldl (λ acc tm, <[Notification.id tm.2 := tm.2]> acc) t ms.

(** No UUID still to be drawn names a stored notification, and [uuid1]
    never repeats itself. *)
Definition uuids_fresh (rt : Runtime) (w : World) : Prop :=
  Inj (=) (=) (str_uuid1 rt) ∧
  ∀ n, uuids_drawn w ≤ n → notifications (db w) !! str_uuid1 rt n = None.

(** The key of a subscription: [f"{uid}@{channel}:{tenant}"]. *)
Definition subscription_key (uid channel tenant : string) : string :=
  uid +:+ "@" +:+ channel +:+ ":" +:+ tenant.

(** Every stored subscription sits under the key of its own triple, whose
    channel and tenant are made of id characters, as the ids the channel
    and tenant models accept are. *)
Definition ledger_keyed (d : Database) : Prop :=
  ∀ k s, subscriptions d !! k = Some s →
    Subscription.id s = k
    ∧ k = subscription_key (Subscription.user_id s) (Subscription.channel_id s)
            (Subscription.tenant_id s)
    ∧ all_slug_chars (Subscription.channel_id s) = true
    ∧ all_slug_chars (Subscription.tenant_id s) = true.

(** What the history of a user in a tenant is made of: a stored
    notification of the tenant that is addressed to the user's own id or
    to a channel that a stored subscription of the user in the tenant
    names. *)
Definition in_history (d : Database) (tenant uid : string) (n : Notification.t)
    : Prop :=
  (∃ k, notifications d !! k = Some n)
  ∧ Notification.tenant_id n = tenant
  ∧ (Notification.channel_id n = uid
     ∨ ∃ s, (∃ k, subscriptions d !! k = Some s)
            ∧ Subscription.tenant_id s = tenant
            ∧ Subscription.user_id s = uid
            ∧ Subscription.channel_id s = Notification.channel_id n).

(** Every stored notification sits under its own id, as the senders
    store it. *)
Definition notifications_keyed (d : Database) : Prop :=
  ∀ k n, notifications d !! k = Some n → Notification.id n = k.

(** Every stored token record is one the column takes: no token in it
    holds U+0000. *)
Definition tokens_clean (d : Database) : Prop :=
  ∀ k row, tokens d !! k = Some row → forallb no_nul (Tokens.device_tokens row) = true.

(** No stored channel is its own parent. *)
Definition no_self_parent (d : Database) : Prop :=
  ∀ k c, channels d !! k = Some c → Channel.id c = k ∧ Channel.parent_id c ≠ Some k.

(** The request with the descendants option set to [b]. *)
Definition with_child_channels (b : bool) (p : NotificationCreate.t)
    : NotificationCreate.t :=
  NotificationCreate.mk (NotificationCreate.channel_ids p) b
    (NotificationCreate.title p) (NotificationCreate.body p).

(** The world with another channels table. *)
Definition with_channels (cs : gmap string Channel.t) (w : World) : World :=
  mkWorld (set_channels cs (db w)) (outbox w) (uuids_drawn w) (clock_reads w).

(** A handler that neither reads nor writes the channels table: run with
    any other channels table it does the same. *)
Definition ignores_channels {A} (m : M A) : Prop :=
  ∀ cs w, m (with_channels cs w) = ((m w).1, with_channels cs (m w).2).

(** ** Sample data *)

Definition sample_rt : Runtime :=
  mkRuntime (λ n, "uuid-" +:+ pretty n)
    (λ n, "2026-01-01 10:00:00." +:+ pretty (100000 + N.of_nat n)%N)
    AuthUser.preferred_username.

Definition alice : AuthUser.t := AuthUser.mk "alice" "sub-alice".
Definition bob : AuthUser.t := AuthUser.mk "bob" "sub-bob".
Definition carol : AuthUser.t := AuthUser.mk "carol" "sub-carol".

Definition after {A} (m : M A) (w : World) : World := (m w).2.

Definition empty_world : World := mkWorld (mkDatabase ∅ ∅ ∅ ∅) [] 0 0.

(** The channel tree a → b → c of tenant "t", with alice on a, bob on b
    and carol on c, each with one device. *)
Definition tree_world : World :=
  after (save_user_token sample_rt (TokenCreate.mk ["tok-carol"]) "t" carol)
  (after (save_user_token sample_rt (TokenCreate.mk ["tok-bob"]) "t" bob)
  (after (save_user_token sample_rt (TokenCreate.mk ["tok-alice"]) "t" alice)
  (after (subscribe_to_channel sample_rt "t" "c" carol)
  (after (subscribe_to_channel sample_rt "t" "b" bob)
  (after (subscribe_to_channel sample_rt "t" "a" alice)
  (after (create_channel sample_rt
            (ChannelCreate.mk "c" "C" None true false (Some "b")) "t" alice)
  (after (create_channel sample_rt
            (ChannelCreate.mk "b" "B" None true false (Some "a")) "t" alice)
  (after (create_channel sample_rt
            (ChannelCreate.mk "a" "A" None true false None) "t" alice)
     empty_world)))))))).

(** Channels x and its child y; alice follows both and has one device. *)
Definition both_world : World :=
  after (save_user_token sample_rt (TokenCreate.mk ["tok-alice"]) "t" alice)
  (after (subscribe_to_channel sample_rt "t" "y" alice)
  (after (subscribe_to_channel sample_rt "t" "x" alice)
  (after (create_channel sample_rt
            (ChannelCreate.mk "y" "Y" None true false (Some "x")) "t" alice)
  (after (create_channel sample_rt
            (ChannelCreate.mk "x" "X" None true false None) "t" alice)
     empty_world)))).

(** A channel nobody follows. *)
Definition quiet_world : World :=
  after (create_channel sample_rt
           (ChannelCreate.mk "quiet" "Quiet" None true false None) "t" alice)
    empty_world.

(** A public and a private channel of tenant "t". *)
Definition private_world : World :=
  after (create_channel sample_rt
           (ChannelCreate.mk "staff" "Staff" None true true None) "t" alice)
  (after (create_channel sample_rt
           (ChannelCreate.mk "news" "News" None true false None) "t" alice)
     empty_world).

(** Requests and the messages they produce. *)
Definition to_x_and_y : NotificationCreate.t :=
  NotificationCreate.mk ["x"; "y"] true "hi" "there".
Definition to_a : NotificationCreate.t :=
  NotificationCreate.mk ["a"] true "hi" "there".
Definition to_a_and_ghost : NotificationCreate.t :=
  NotificationCreate.mk ["a"; "ghost"] true "hi" "there".
Definition to_quiet : NotificationCreate.t :=
  NotificationCreate.mk ["quiet"] true "hi" "there".

Definition sample_message (channel id sent_at : string) : Notification.t :=
  Notification.mk "t" channel "hi" "there" "alice" id sent_at.

(** Three sends to channel a of the tree, one after the other. *)
Definition history_world : World :=
  after (send_notifications sample_rt to_a "t" alice)
  (after (send_notifications sample_rt to_a "t" alice)
  (after (send_notifications sample_rt to_a "t" alice) tree_world)).

Definition staff_channel : Channel.t :=
  Channel.mk "staff" "Staff" "t" None true true None "2026-01-01 10:00:00.100001"
    (Some "sub-alice").
Definition news_channel : Channel.t :=
  Channel.mk "news" "News" "t" None true false None "2026-01-01 10:00:00.100000"
    (Some "sub-alice").

(** ** tenants.py and the routes *)

Module Tenant.
Record t := mk {
  id : string;
  name : string;
  description : option string;
  default_locale : string;
  settings : gmap string string;
  admin_roles : list string;
  created_at : string
}.
End Tenant.

(** The default tenant is made of configuration and clock text. *)
#[global] Instance Tenant_document : Document Tenant.t := λ _, [].

(** The whole application state: the tenants table, which only the
    start-up code writes, beside the world of the request handlers. *)
Record Site := mkSite {
  tenants : gmap string Tenant.t;
  world : World
}.

Definition T (A : Type) : Type := Site → outcome A * Site.

Definition T_bind_def {A B} (k : A → T B) (m : T A) : T B := λ s,
  match m s with
  | (Returned a, s') => k a s'
  | (Raised e, s') => (Raised e, s')
  end.

#[global] Instance T_ret : MRet T := λ A a s, (Returned a, s).
#[global] Instance T_bind : MBind T := @T_bind_def.

(** A request handler run inside the application state. *)
Definition in_world {A} (m : M A) : T A := λ s,
  let (o, w') := m (world s) in (o, mkSite (tenants s) w').

Section Routes.
Context (rt : Runtime).

(** [get_tenant_id], the dependency of every tenant route. *)
Definition get_tenant_id (tenant_id : string) : T string := λ s,
  match select_by_id tenant_id (tenants s) with
  | None => (Raised (HTTPException 404 "Tenant not found."), s)
  | Some _ => (Returned tenant_id, s)
  end.

(** [tenants_init]: the row is looked up under [settings.DEFAULT_TENANT]
    and inserted under the literal key ["jamboree26"]. *)
Definition tenants_init (settings : Settings.t) : T unit := λ s,
  match select_by_id (Settings.DEFAULT_TENANT settings) (tenants s) with
  | Some _ => (Returned tt, s)
  | None =>
      let now := str_now rt (clock_reads (world s)) in
      let w' := mkWorld (db (world s)) (outbox (world s))
                  (uuids_drawn (world s)) (S (clock_reads (world s))) in
      let default_tenant :=
        Tenant.mk (Settings.DEFAULT_TENANT settings)
          (Settings.DEFAULT_TENANT_NAME settings)
          (Some "Default tenant seeded from configuration.") "sv" ∅ [] now in
      match insert_row "jamboree26" default_tenant (tenants s) with
      | Returned t => (Returned tt, mkSite t w')
      | Raised e => (Raised e, mkSite (tenants s) w')
      end
  end.

(** [list_tenants]: all rows of the table. *)
Definition list_tenants (user : AuthUser.t) : T (list Tenant.t) := λ s,
  (Returned (select_where (λ _, true) (tenants s)), s).

(** [POST /tenants/{tenant_id}/channels/{channel_id}/subscriptions] as
    FastAPI runs it: the dependencies in the order of the parameters, then
    the handler. *)
Definition subscribe_to_channel_route (tenant_id channel_id : string)
    (user : AuthUser.t) : T Subscription.t :=
  tenant ← get_tenant_id tenant_id;
  channel ← in_world (get_channel_id channel_id);
  in_world (subscribe_to_channel rt tenant channel user).

(** [DELETE /tenants/{tenant_id}/channels/{channel_id}/subscriptions]. *)
Definition unsubscribe_from_channel_route (tenant_id channel_id : string)
    (user : AuthUser.t) : T unit :=
  tenant ← get_tenant_id tenant_id;
  channel ← in_world (get_channel_id channel_id);
  in_world (unsubscribe_from_channel tenant channel user).

End Routes.

(** ** More of what the handlers compute, as functions of the state *)

(** Whether [create_channel] finds the given parent missing. *)
Definition parent_missing (payload : ChannelCreate.t) (d : Database) : bool :=
  match ChannelCreate.parent_id payload with
  | Some p => truthy p && bool_decide (channels d !! p = None)
  | None => false
  end.

(** The document [create_channel] stores. *)
Definition created_channel (rt : Runtime) (payload : ChannelCreate.t)
    (tenant : string) (user : AuthUser.t) (w : World) : Channel.t :=
  Channel.mk (ChannelCreate.id payload) (ChannelCreate.name payload) tenant
    (ChannelCreate.description payload) (ChannelCreate.is_open payload)
    (ChannelCreate.is_private payload) (ChannelCreate.parent_id payload)
    (str_now rt (clock_reads w)) (Some (AuthUser.subject user)).

(** Every stored channel sits under an id made of id characters. *)
Definition channels_slugged (d : Database) : Prop :=
  ∀ k c, channels d !! k = Some c → all_slug_chars k = true.

(** Every stored tenant sits under an id made of id characters. *)
Definition tenants_slugged (s : Site) : Prop :=
  ∀ k t, tenants s !! k = Some t → all_slug_chars k = true.

(** The message of the heartbeat turn that starts with [u] UUIDs and [t]
    clock readings drawn. *)
Definition heartbeat_message (rt : Runtime) (settings : Settings.t) (u t : nat)
    : Notification.t :=
  Notification.mk (Settings.DEFAULT_TENANT settings) "heartbeat" "HeartBeat"
    ("Aktuell tid: " +:+ str_now rt t) "Heartbeat loop"
    (str_uuid1 rt u) (str_now rt (S t)).

(** What [turns] heartbeat turns hand to Firebase when the heartbeat batch
    fits a multicast message. *)
Fixpoint heartbeat_dispatches (rt : Runtime) (settings : Settings.t)
    (d : Database) (u t turns : nat) : list (list string * Notification.t) :=
  match turns with
  | O => []
  | S turns' =>
      match channel_tokens d (Settings.DEFAULT_TENANT settings) "heartbeat" with
      | [] => []
      | tok :: toks => [(tok :: toks, heartbeat_message rt settings u t)]
      end ++ heartbeat_dispatches rt settings d (S u) (S (S t)) turns'
  end.

(** ** More sample data *)

Definition sample_tenant : Tenant.t :=
  Tenant.mk "t" "Tenant" None "sv" ∅ [] "2026-01-01 09:00:00.000000".

(** The tree of channels inside a site whose only tenant is "t". *)
Definition sample_site : Site := mkSite {[ "t" := sample_tenant ]} tree_world.

Definition empty_site : Site := mkSite ∅ empty_world.

(** Settings with a default tenant other than the shipped one. *)
Definition camp_settings : Settings.t := Settings.mk "camp" "Camp".

Definition to_alice : DirectNotificationCreate.t :=
  DirectNotificationCreate.mk "alice" "hi" "there".

(** A text with U+0000 in it. *)
Definition nul_text : string :=
  String "a"%char (String "000"%char (String "b"%char EmptyString)).

(** A channel crowded with 501 devices of alice. *)
Definition crowded_world : World :=
  after (save_user_token sample_rt (TokenCreate.mk (replicate 501 "tok")) "t" alice)
  (after (subscribe_to_channel sample_rt "t" "crowd" alice) empty_world).

Definition to_crowd : NotificationCreate.t :=
  NotificationCreate.mk ["crowd"] true "hi" "there".

Definition to_b : NotificationCreate.t :=
  NotificationCreate.mk ["b"] true "hi" "there".

(** The tree after a send to a, a send to b, a direct send to alice, a
    send to the channel a of another tenant "u" (which bob follows there,
    with one device), and one more send to a. *)
Definition mixed_world : World :=
  after (send_notifications sample_rt to_a "t" alice)
  (after (send_notifications sample_rt to_a "u" alice)
  (after (save_user_token sample_rt (TokenCreate.mk ["tok-bob-u"]) "u" bob)
  (after (subscribe_to_channel sample_rt "u" "a" bob)
  (after (send_direct_notifications sample_rt to_alice "t" bob)
  (after (send_notifications sample_rt to_b "t" alice)
  (after (send_notifications sample_rt to_a "t" alice) tree_world)))))).

Definition quiet_again : ChannelCreate.t :=
  ChannelCreate.mk "quiet" "Quiet once more" None true false None.

Definition under_quiet : ChannelCreate.t :=
  ChannelCreate.mk "b" "B" None true false (Some "quiet").

(** * Properties *)

Ltac run_M :=
  unfold mbind, M_bind, bind, mret, M_ret, ret, raise, lift, get_db, put_db,
    utcnow, uuid1, is_tenant_admin, select_by_id in *; simpl in *.

Section Properties.
Context (rt : Runtime).

(** ** Reading handlers leave the world alone *)

Lemma get_subscription_tokens_run tenant channel w :
  get_subscription_tokens tenant channel w
  = (Returned (channel_tokens (db w) tenant channel), w).
Proof.
  unfold get_subscription_tokens, channel_tokens. run_M.
  by destruct (select_where _ _).
Qed.

Lemma get_user_tokens_run tenant user_id w :
  get_user_tokens tenant user_id w
  = (Returned (match tokens (db w) !! (user_id +:+ ":" +:+ tenant) with
               | Some row => Tokens.device_tokens row
               | None => []
               end), w).
Proof. unfold get_user_tokens. run_M. by destruct (_ !! _). Qed.

Lemma insert_row_fresh {V} `{Document V} k (v : V) (t : gmap string V) :
  encodable v = true → t !! k = None → insert_row k v t = Returned (<[k := v]> t).
Proof. unfold insert_row. by intros -> ->. Qed.

Lemma insert_row_taken {V} `{Document V} k (v : V) (t : gmap string V) :
  encodable v = true → is_Some (t !! k) →
  insert_row k v t = Raised UniqueViolationError.
Proof. unfold insert_row. by intros -> [? ->]. Qed.

Lemma forallb_elem_of {A} (f : A → bool) (l : list A) :
  forallb f l = true ↔ ∀ x, x ∈ l → f x = true.
Proof.
  induction l as [|a l IH]; simpl.
  - split; [by intros _ x ?%elem_of_nil|done].
  - rewrite andb_true_iff, IH. split.
    + intros [Ha Hl] x [->|?]%elem_of_cons; auto.
    + intros Hall. split; [apply Hall; by left|]. intros x Hx. apply Hall. by right.
Qed.

(** The channel document is taken when the name and the description of
    the request hold no U+0000. *)
Lemma encodable_created_channel payload tenant user w :
  encodable (created_channel rt payload tenant user w)
  = no_nul (ChannelCreate.name payload)
    && from_option no_nul true (ChannelCreate.description payload).
Proof.
  unfold encodable, free_text, Channel_document, created_channel. simpl.
  destruct (ChannelCreate.description payload); simpl; [|done].
  by rewrite andb_true_r.
Qed.

(** A notification is taken when its title and body hold no U+0000. *)
Lemma encodable_notification (n : Notification.t) :
  encodable n = no_nul (Notification.title n) && no_nul (Notification.body n).
Proof. unfold encodable, free_text, Notification_document. simpl. by rewrite andb_true_r. Qed.

Lemma over_limit_true l : over_limit l = true ↔ multicast_limit < length l.
Proof. unfold over_limit. apply Nat.ltb_lt. Qed.

Lemma over_limit_false l : length l ≤ multicast_limit ↔ over_limit l = false.
Proof. unfold over_limit. symmetry. apply Nat.ltb_ge. Qed.

Lemma matches_id_pattern_nonempty s : matches_id_pattern s = true → s ≠ "".
Proof. by destruct s. Qed.

Lemma truthy_true s : truthy s = true ↔ s ≠ "".
Proof. by destruct s. Qed.

(** ** Channel Directory *)

(** What [create_channel] does, check by check. *)
Lemma create_channel_outcome payload tenant user w :
  create_channel rt payload tenant user w
  = if negb (ChannelCreate_validate payload) then
      (Raised RequestValidationError, w)
    else
      match channels (db w) !! ChannelCreate.id payload with
      | Some _ =>
          (Raised (HTTPException 409
                     ("Channel '" +:+ ChannelCreate.id payload
                      +:+ "' already exists.")), w)
      | None =>
          if parent_missing payload (db w) then
            (Raised (HTTPException 404 "Parent channel not found."), w)
          else if encodable (created_channel rt payload tenant user w) then
            (Returned (created_channel rt payload tenant user w),
             mkWorld (set_channels
                        (<[ChannelCreate.id payload
                           := created_channel rt payload tenant user w]>
                           (channels (db w))) (db w))
               (outbox w) (uuids_drawn w) (S (clock_reads w)))
          else
            (Raised UntranslatableCharacterError,
             mkWorld (db w) (outbox w) (uuids_drawn w) (S (clock_reads w)))
      end.
Proof.
  unfold create_channel, parent_missing.
  destruct (ChannelCreate_validate payload); [|done]. run_M.
  destruct (channels (db w) !! ChannelCreate.id payload) eqn:Hid; [done|].
  assert (Hwrite :
    insert_row (ChannelCreate.id payload) (created_channel rt payload tenant user w)
      (channels (db w))
    = if encodable (created_channel rt payload tenant user w)
      then Returned (<[ChannelCreate.id payload
                       := created_channel rt payload tenant user w]> (channels (db w)))
      else Raised UntranslatableCharacterError).
  { unfold insert_row. rewrite Hid.
    by destruct (encodable (created_channel rt payload tenant user w)). }
  unfold created_channel in *.
  destruct (ChannelCreate.parent_id payload) as [p|]; simpl.
  - destruct (truthy p); simpl.
    + destruct (channels (db w) !! p) eqn:Hp; simpl; [|done].
      rewrite Hwrite. by destruct (encodable _).
    + rewrite Hwrite. by destruct (encodable _).
  - rewrite Hwrite. by destruct (encodable _).
Qed.

Lemma parent_missing_false payload d p :
  parent_missing payload d = false →
  ChannelCreate.parent_id payload = Some p → p ≠ "" →
  is_Some (channels d !! p).
Proof.
  unfold parent_missing. intros Hmiss Hpar Hp%truthy_true.
  rewrite Hpar, Hp in Hmiss. simpl in Hmiss. apply bool_decide_eq_false in Hmiss.
  by destruct (channels d !! p); [eexists|].
Qed.

(** C10. A channel is never created as its own parent: when [create_channel]
    returns, the new id was absent from the channels table, a parent id that
    is given and not empty named a stored channel, exactly the returned
    document was stored under the new id, and its [parent_id] differs from
    its [id]. *)
Theorem create_channel_never_self_parent payload tenant user w data w' :
  create_channel rt payload tenant user w = (Returned data, w') →
  channels (db w) !! ChannelCreate.id payload = None
  ∧ (∀ p, ChannelCreate.parent_id payload = Some p → p ≠ "" →
          is_Some (channels (db w) !! p))
  ∧ Channel.id data = ChannelCreate.id payload
  ∧ Channel.parent_id data = ChannelCreate.parent_id payload
  ∧ channels (db w') = <[Channel.id data := data]> (channels (db w))
  ∧ Channel.parent_id data ≠ Some (Channel.id data).
Proof.
  rewrite create_channel_outcome.
  destruct (ChannelCreate_validate payload) eqn:Hvalid; simpl; [|done].
  apply matches_id_pattern_nonempty in Hvalid.
  destruct (channels (db w) !! ChannelCreate.id payload) eqn:Hid; [done|].
  destruct (parent_missing payload (db w)) eqn:Hmiss; [done|].
  destruct (encodable _); [|done].
  intros [= <- <-]. simpl. split_and!; try done.
  - intros p Hp Hne. by eapply parent_missing_false.
  - intros Hself.
    destruct (parent_missing_false payload (db w) _ Hmiss Hself) as [c Hc]; [done|].
    congruence.
Qed.

(** Creation does go through when the checks pass and the free text is
    clean. *)
Lemma create_channel_returns payload tenant user w :
  ChannelCreate_validate payload = true →
  channels (db w) !! ChannelCreate.id payload = None →
  parent_missing payload (db w) = false →
  encodable (created_channel rt payload tenant user w) = true →
  ∃ data w', create_channel rt payload tenant user w = (Returned data, w').
Proof.
  intros Hvalid Hid Hparent Hclean.
  rewrite create_channel_outcome, Hvalid, Hid, Hparent, Hclean. simpl. eauto.
Qed.

(** The three handlers that write the channels table keep every stored
    channel under its own id and distinct from its parent. *)
Lemma create_channel_no_self_parent payload tenant user w :
  no_self_parent (db w) →
  no_self_parent (db (create_channel rt payload tenant user w).2).
Proof.
  intros Hinv. rewrite create_channel_outcome.
  destruct (ChannelCreate_validate payload) eqn:Hvalid; simpl; [|done].
  destruct (channels (db w) !! ChannelCreate.id payload) eqn:Hid; [done|].
  destruct (parent_missing payload (db w)) eqn:Hmiss; [done|].
  destruct (encodable _); [|done].
  intros k c. simpl. rewrite lookup_insert.
  case_decide as Hk; [|apply Hinv]. intros [= <-]. simpl. split; [done|].
  subst k. intros Hself.
  destruct (parent_missing_false payload (db w) _ Hmiss Hself) as [c Hc].
  - by apply matches_id_pattern_nonempty.
  - congruence.
Qed.

Lemma delete_channel_no_self_parent channel_id tenant user w :
  no_self_parent (db w) →
  no_self_parent (db (delete_channel channel_id tenant user w).2).
Proof.
  intros Hinv. unfold delete_channel. run_M.
  destruct (channels (db w) !! channel_id); simpl; [|done].
  intros k c. simpl. unfold delete_row. rewrite lookup_delete.
  case_decide; [done|]. apply Hinv.
Qed.

Lemma channels_init_no_self_parent settings w :
  no_self_parent (db w) →
  no_self_parent (db (channels_init rt settings w).2).
Proof.
  intros Hinv. unfold channels_init. run_M.
  destruct (channels (db w) !! "heartbeat") eqn:Hhb; simpl; [done|].
  rewrite insert_row_fresh by done. simpl.
  intros k c. simpl. rewrite lookup_insert.
  case_decide as Hk; [by intros [= <-]|]. apply Hinv.
Qed.

(** C5, the code at the failing input: asked without private channels,
    [list_channels] still returns the private channel "staff". *)
Theorem list_channels_returns_private :
  (list_channels false "t" alice private_world).1
  = Returned [staff_channel; news_channel]
  ∧ Channel.is_private staff_channel = true.
Proof. split; [vm_compute|]; reflexivity. Qed.

(** The [include_private] parameter is never read: the listing is the
    tenant's channels, private or not. *)
Lemma list_channels_ignores_include_private include_private tenant user w :
  list_channels include_private tenant user w = list_channels true tenant user w.
Proof. reflexivity. Qed.

Lemma elem_of_select_where {V} (P : V → bool) (t : gmap string V) v :
  v ∈ select_where P t ↔ (∃ k, t !! k = Some v) ∧ P v = true.
Proof.
  unfold select_where. rewrite list_elem_of_filter, list_elem_of_fmap. split.
  - intros [HP [[k v'] [-> Hin]]]. apply elem_of_map_to_list in Hin. eauto.
  - intros [[k Hk] HP]. split; [done|]. exists (k, v).
    split; [done|]. by apply elem_of_map_to_list.
Qed.

Lemma list_channels_spec include_private tenant user w :
  ∃ l, list_channels include_private tenant user w = (Returned l, w)
       ∧ ∀ c, c ∈ l ↔ (∃ k, channels (db w) !! k = Some c)
                        ∧ Channel.tenant_id c = tenant.
Proof.
  eexists. split; [reflexivity|]. intros c.
  rewrite elem_of_select_where. by rewrite bool_decide_eq_true.
Qed.

(** ** The two steps of a send *)

Lemma insert_notification_run msg w :
  insert_notification msg w
  = if encodable msg then
      match notifications (db w) !! Notification.id msg with
      | None =>
          (Returned tt,
           mkWorld (set_notifications
                      (<[Notification.id msg := msg]> (notifications (db w))) (db w))
             (outbox w) (uuids_drawn w) (clock_reads w))
      | Some _ => (Raised UniqueViolationError, w)
      end
    else (Raised UntranslatableCharacterError, w).
Proof.
  unfold insert_notification, insert_row. run_M.
  destruct (encodable msg); simpl; [|done].
  by destruct (notifications (db w) !! Notification.id msg).
Qed.

Lemma send_direct_notification_run tenant msg_tokens msg save w :
  send_direct_notification tenant msg_tokens msg save w
  = match msg_tokens with
    | [] => (Returned tt, w)
    | _ :: _ =>
        if over_limit msg_tokens then (Raised ValueError, w) else
        let w1 := mkWorld (db w) (outbox w ++ [(msg_tokens, msg)])
                    (uuids_drawn w) (clock_reads w) in
        if save then insert_notification msg w1 else (Returned tt, w1)
    end.
Proof.
  unfold send_direct_notification, firebase_send. run_M.
  destruct msg_tokens as [|tok toks]; [done|].
  destruct (over_limit (tok :: toks)); [done|]. by destruct save.
Qed.

Lemma send_notification_run tenant channel msg save w :
  send_notification tenant channel msg save w
  = send_direct_notification tenant (channel_tokens (db w) tenant channel) msg save w.
Proof.
  unfold send_notification, send_direct_notification. run_M.
  by rewrite get_subscription_tokens_run.
Qed.

(** ** Direct sends *)

Lemma list_to_set_empty_inv (l : list string) :
  list_to_set l =@{gset string} ∅ → l = [].
Proof.
  destruct l as [|x l]; [done|]. simpl. intros Hempty.
  assert (Hx : x ∈ ({[x]} ∪ list_to_set l : gset string))
    by (apply elem_of_union; left; by apply elem_of_singleton).
  rewrite Hempty in Hx. by apply not_elem_of_empty in Hx.
Qed.

Lemma token_set_empty d tenant user_id :
  token_set d tenant user_id = ∅ →
  match tokens d !! (user_id +:+ ":" +:+ tenant) with
  | Some row => Tokens.device_tokens row
  | None => []
  end = [].
Proof.
  unfold token_set. destruct (_ !! _); [|done]. apply list_to_set_empty_inv.
Qed.


(** A direct send to a user with a token and an unused UUID goes out once
    and is recorded once, under the user's id as the channel. *)
Lemma send_direct_notifications_run payload tenant user w row tok toks :
  DirectNotificationCreate.user_id payload ≠ "" →
  tokens (db w) !! (DirectNotificationCreate.user_id payload +:+ ":" +:+ tenant)
  = Some row →
  Tokens.device_tokens row = tok :: toks →
  over_limit (tok :: toks) = false →
  no_nul (DirectNotificationCreate.title payload) = true →
  no_nul (DirectNotificationCreate.body payload) = true →
  notifications (db w) !! str_uuid1 rt (uuids_drawn w) = None →
  let msg := Notification.mk tenant (DirectNotificationCreate.user_id payload)
               (DirectNotificationCreate.title payload)
               (DirectNotificationCreate.body payload) (str_user rt user)
               (str_uuid1 rt (uuids_drawn w)) (str_now rt (clock_reads w)) in
  send_direct_notifications rt payload tenant user w
  = (Returned msg,
     mkWorld (set_notifications (<[Notification.id msg := msg]> (notifications (db w)))
                (db w))
       (outbox w ++ [(tok :: toks, msg)]) (S (uuids_drawn w)) (S (clock_reads w))).
Proof.
  intros Huser Hrow Htoks Hfit Htitle Hbody Hfresh msg.
  unfold send_direct_notifications.
  apply truthy_true in Huser as ->. simpl.
  unfold new_Notification, firebase_send. run_M.
  rewrite get_user_tokens_run, Hrow, Htoks. simpl. rewrite Hfit.
  rewrite insert_notification_run, encodable_notification. simpl.
  by rewrite Htitle, Hbody, Hfresh.
Qed.

(** Whatever a direct send raises before the message is built, it leaves
    the world as it was. *)
Lemma send_direct_notifications_rejects payload tenant user w status detail w' :
  send_direct_notifications rt payload tenant user w
  = (Raised (HTTPException status detail), w') →
  w' = w ∧ (status = 400 ∨ status = 428).
Proof.
  unfold send_direct_notifications.
  destruct (truthy _); simpl; [|intros [= <- _ <-]; auto].
  unfold new_Notification. run_M.
  rewrite get_user_tokens_run.
  destruct (match tokens (db w) !! _ with Some _ => _ | None => _ end)
    as [|tok toks]; simpl; [intros [= <- _ <-]; auto|].
  unfold firebase_send. destruct (over_limit (tok :: toks)); [done|].
  rewrite insert_notification_run. destruct (encodable _); [|done].
  simpl. by destruct (notifications _ !! _).
Qed.

(** ** Subscription Ledger *)

Lemma filter_none {A} (P : A → Prop) `{!∀ x, Decision (P x)} (l : list A) :
  (∀ x, x ∈ l → ¬ P x) → filter P l = [].
Proof.
  induction l as [|x l IH]; intros Hl; [done|].
  rewrite filter_cons_False by (apply Hl; left).
  apply IH. intros y Hy. apply Hl. by right.
Qed.

Lemma rows_with_key {V} (m : gmap string V) k v :
  m !! k = Some v →
  filter (λ kv, kv.1 = k) (map_to_list m) = [(k, v)].
Proof.
  intros Hk. apply Permutation_singleton_r.
  rewrite <-(insert_delete_id m k v) at 1 by done.
  rewrite map_to_list_insert by apply lookup_delete_eq.
  rewrite filter_cons_True by done.
  rewrite filter_none; [done|].
  intros [k' v'] Hin%elem_of_map_to_list ?; simplify_eq/=.
  by rewrite lookup_delete_eq in Hin.
Qed.

Lemma mentions_app a s1 s2 :
  mentions a (s1 +:+ s2) = mentions a s1 || mentions a s2.
Proof.
  induction s1 as [|b s1 IH]; [done|].
  change (String b s1 +:+ s2) with (String b (s1 +:+ s2)). simpl.
  by rewrite IH, orb_assoc.
Qed.

Lemma slug_char_not_separator a :
  slug_char a = true → a ≠ "@"%char ∧ a ≠ ":"%char.
Proof. intros Hslug. split; intros ->; vm_compute in Hslug; discriminate. Qed.

Lemma slug_mentions_no_separator s :
  all_slug_chars s = true →
  mentions "@" s = false ∧ mentions ":" s = false.
Proof.
  induction s as [|a s IH]; [done|]. simpl.
  intros [Ha Hs]%andb_true_iff. destruct (IH Hs) as [-> ->].
  destruct (slug_char_not_separator a Ha) as [Hat Hcolon].
  rewrite !orb_false_r. split; apply bool_decide_eq_false; congruence.
Qed.

Lemma app_separator_inj sep x x' y y' :
  mentions sep y = false → mentions sep y' = false →
  x +:+ String sep y = x' +:+ String sep y' → x = x' ∧ y = y'.
Proof.
  intros Hy Hy'. revert x'. induction x as [|a x IH]; intros [|a' x'] Heq.
  - by injection Heq as ->.
  - injection Heq as -> ->. rewrite mentions_app in Hy. simpl in Hy.
    rewrite bool_decide_eq_true_2, orb_true_r in Hy by done. done.
  - injection Heq as -> <-. rewrite mentions_app in Hy'. simpl in Hy'.
    rewrite bool_decide_eq_true_2, orb_true_r in Hy' by done. done.
  - injection Heq as -> Heq. destruct (IH x' Heq) as [-> ->]. done.
Qed.

Lemma subscription_key_inj uid channel tenant uid' channel' tenant' :
  all_slug_chars channel = true → all_slug_chars tenant = true →
  all_slug_chars channel' = true → all_slug_chars tenant' = true →
  subscription_key uid channel tenant = subscription_key uid' channel' tenant' →
  uid = uid' ∧ channel = channel' ∧ tenant = tenant'.
Proof.
  intros [Hc _]%slug_mentions_no_separator [_ Ht]%slug_mentions_no_separator
         [Hc' _]%slug_mentions_no_separator [_ Ht']%slug_mentions_no_separator.
  unfold subscription_key. intros Heq.
  assert (Hsplit : ∀ u c t, u +:+ "@" +:+ c +:+ ":" +:+ t
                            = (u +:+ String "@" c) +:+ String ":" t).
  { intros u c t. induction u as [|a u IH]; [done|].
    change (String a u +:+ ?s) with (String a (u +:+ s)). by rewrite IH. }
  rewrite !Hsplit in Heq.
  apply app_separator_inj in Heq as [Heq ->]; [|done..].
  apply app_separator_inj in Heq as [-> ->]; done.
Qed.

Lemma filter_ext_elem {A} (P Q : A → Prop) `{!∀ x, Decision (P x)}
    `{!∀ x, Decision (Q x)} (l : list A) :
  (∀ x, x ∈ l → P x ↔ Q x) → filter P l = filter Q l.
Proof.
  induction l as [|x l IH]; intros Hl; [done|].
  rewrite !filter_cons, IH by (intros y Hy; apply Hl; by right).
  destruct (decide (P x)) as [HP|HP], (decide (Q x)) as [HQ|HQ]; try done;
    exfalso; apply (Hl x) in HP || apply (Hl x) in HQ; try done; by left.
Qed.

Lemma select_where_fmap {V} (P : V → bool) (t : gmap string V) :
  select_where P t = snd <$> filter (λ kv, P kv.2 = true) (map_to_list t).
Proof.
  unfold select_where. induction (map_to_list t) as [|[k v] l IH]; [done|].
  csimpl. rewrite !filter_cons. simpl. destruct (decide (P v = true)); csimpl;
    by rewrite IH.
Qed.

(** In a keyed ledger the rows of a triple are the rows under its key. *)
Lemma ledger_rows_of_triple d tenant channel uid stored :
  ledger_keyed d →
  all_slug_chars channel = true → all_slug_chars tenant = true →
  subscriptions d !! subscription_key uid channel tenant = Some stored →
  select_where
    (λ s, bool_decide (Subscription.tenant_id s = tenant)
          && bool_decide (Subscription.channel_id s = channel)
          && bool_decide (Subscription.user_id s = uid))
    (subscriptions d) = [stored]
  ∧ to_SubscriptionRead stored
    = SubscriptionRead.mk (subscription_key uid channel tenant) tenant channel uid.
Proof.
  intros Hkeyed Hc Ht Hstored.
  destruct (Hkeyed _ _ Hstored) as (Hid & Hkey & Hsc & Hst).
  apply subscription_key_inj in Hkey as (Hu & Hch & Hte); [|done..].
  split.
  - rewrite select_where_fmap.
    rewrite (filter_ext_elem _ (λ kv, kv.1 = subscription_key uid channel tenant)).
    { by rewrite (rows_with_key _ _ stored). }
    intros [k s] Hks%elem_of_map_to_list. simpl.
    rewrite !andb_true_iff, !bool_decide_eq_true. split.
    + intros [[<- <-] <-]. by destruct (Hkeyed _ _ Hks) as (_ & -> & _).
    + intros ->. rewrite Hstored in Hks. injection Hks as <-. done.
  - unfold to_SubscriptionRead. by rewrite Hid, <-Hu, <-Hch, <-Hte.
Qed.

Lemma subscribe_to_channel_keeps_ledger_keyed tenant channel user w :
  ledger_keyed (db w) →
  all_slug_chars channel = true → all_slug_chars tenant = true →
  ledger_keyed (db (subscribe_to_channel rt tenant channel user w).2).
Proof.
  intros Hkeyed Hc Ht k s. simpl. unfold insert_or_ignore.
  destruct (subscriptions (db w) !! _) eqn:Hrow; simpl; [apply Hkeyed|].
  rewrite lookup_insert. case_decide as Hk; [|apply Hkeyed].
  intros [= <-]. by subst k.
Qed.

Lemma unsubscribe_from_channel_keeps_ledger_keyed tenant channel user w :
  ledger_keyed (db w) →
  ledger_keyed (db (unsubscribe_from_channel tenant channel user w).2).
Proof.
  intros Hkeyed. unfold unsubscribe_from_channel. run_M.
  destruct (select_where _ _) as [|row rows]; simpl; [done|].
  intros k s. simpl. unfold delete_row. rewrite lookup_delete.
  case_decide; [done|]. apply Hkeyed.
Qed.

(** Leaving a channel one has not joined is a 404 and changes nothing. *)
Lemma unsubscribe_from_channel_not_found tenant channel user w :
  select_where
    (λ s, bool_decide (Subscription.tenant_id s = tenant)
          && bool_decide (Subscription.channel_id s = channel)
          && bool_decide (Subscription.user_id s = AuthUser.preferred_username user))
    (subscriptions (db w)) = [] →
  unsubscribe_from_channel tenant channel user w
  = (Raised (HTTPException 404 "Subscription not found."), w).
Proof. intros Hnone. unfold unsubscribe_from_channel. run_M. by rewrite Hnone. Qed.

Lemma subscribe_to_channel_run tenant channel user w :
  let uid := AuthUser.preferred_username user in
  let key := uid +:+ "@" +:+ channel +:+ ":" +:+ tenant in
  let data := Subscription.mk key tenant channel uid (str_now rt (clock_reads w)) in
  subscribe_to_channel rt tenant channel user w
  = (Returned data,
     mkWorld (set_subscriptions (insert_or_ignore key data (subscriptions (db w))) (db w))
       (outbox w) (uuids_drawn w) (S (clock_reads w))).
Proof. reflexivity. Qed.

Lemma subscribe_twice_run tenant channel user w :
  let uid := AuthUser.preferred_username user in
  let key := uid +:+ "@" +:+ channel +:+ ":" +:+ tenant in
  ∃ s1 w1 s2 w2 stored,
    subscribe_to_channel rt tenant channel user w = (Returned s1, w1)
    ∧ subscribe_to_channel rt tenant channel user w1 = (Returned s2, w2)
    ∧ db w2 = db w1 ∧ outbox w2 = outbox w1
    ∧ filter (λ kv, kv.1 = key) (map_to_list (subscriptions (db w2))) = [(key, stored)]
    ∧ to_SubscriptionRead s2 = SubscriptionRead.mk key tenant channel uid
    ∧ to_SubscriptionRead s2 = to_SubscriptionRead s1
    ∧ match subscriptions (db w) !! key with
      | None => stored = s1
                ∧ size (subscriptions (db w2)) = S (size (subscriptions (db w)))
      | Some row => stored = row ∧ db w2 = db w
      end.
Proof.
  intros uid key.
  destruct (subscriptions (db w) !! key) as [row|] eqn:Hrow.
  - eexists _, _, _, _, row.
    split; [apply subscribe_to_channel_run|].
    split; [apply subscribe_to_channel_run|].
    simpl. fold uid key. unfold insert_or_ignore. rewrite !Hrow. simpl.
    rewrite ?Hrow. destruct (db w) as [cs ts ss ns]; simpl in *.
    repeat split; try done. by apply rows_with_key.
  - eexists _, _, _, _, _.
    split; [apply subscribe_to_channel_run|].
    split; [apply subscribe_to_channel_run|].
    simpl. fold uid key. unfold insert_or_ignore. rewrite !Hrow. simpl.
    rewrite lookup_insert_eq. simpl.
    repeat split; try done.
    + apply rows_with_key, lookup_insert_eq.
    + by apply map_size_insert_None.
Qed.

(** C7 as amended. Subscribing twice with the same arguments: both calls
    return, the second one changes neither the database nor the outbox, and
    the ledger holds exactly one row under the key user@channel:tenant. A
    row that was there before the first call is kept as it is; otherwise
    the one row is the first call's. What the second call returns is not
    the stored row but a record it has just built, with the key and triple
    of the call and the time of the second call; it agrees with the stored
    row on what [response_model=SubscriptionRead] keeps (in a keyed ledger,
    where the stored row is the only row of the triple), and is the stored
    row only if that one carries the time of the second call. *)
Theorem subscribe_twice_one_record tenant channel user w :
  let uid := AuthUser.preferred_username user in
  let key := uid +:+ "@" +:+ channel +:+ ":" +:+ tenant in
  ∃ s1 w1 s2 w2 stored,
    subscribe_to_channel rt tenant channel user w = (Returned s1, w1)
    ∧ subscribe_to_channel rt tenant channel user w1 = (Returned s2, w2)
    ∧ db w2 = db w1 ∧ outbox w2 = outbox w1
    ∧ filter (λ kv, kv.1 = key) (map_to_list (subscriptions (db w2))) = [(key, stored)]
    ∧ to_SubscriptionRead s2 = SubscriptionRead.mk key tenant channel uid
    ∧ to_SubscriptionRead s2 = to_SubscriptionRead s1
    ∧ match subscriptions (db w) !! key with
      | None => stored = s1
                ∧ size (subscriptions (db w2)) = S (size (subscriptions (db w)))
      | Some row => stored = row ∧ db w2 = db w
      end
    ∧ s1 = Subscription.mk key tenant channel uid (str_now rt (clock_reads w))
    ∧ s2 = Subscription.mk key tenant channel uid (str_now rt (S (clock_reads w)))
    ∧ (s2 = stored →
       Subscription.created_at stored = str_now rt (S (clock_reads w)))
    ∧ (ledger_keyed (db w) →
       all_slug_chars channel = true → all_slug_chars tenant = true →
       to_SubscriptionRead s2 = to_SubscriptionRead stored
       ∧ select_where
           (λ s, bool_decide (Subscription.tenant_id s = tenant)
                 && bool_decide (Subscription.channel_id s = channel)
                 && bool_decide (Subscription.user_id s = uid))
           (subscriptions (db w2)) = [stored]).
Proof.
  intros uid key.
  destruct (subscribe_twice_run tenant channel user w)
    as (s1 & w1 & s2 & w2 & stored & Hrun1 & Hrun2 & Hdb & Hout & Hrows
        & Hread & Hsame & Hbefore).
  assert (Hs1 : s1 = Subscription.mk key tenant channel uid (str_now rt (clock_reads w))
                ∧ clock_reads w1 = S (clock_reads w)).
  { rewrite subscribe_to_channel_run in Hrun1. by injection Hrun1 as <- <-. }
  destruct Hs1 as [Hs1 Hclock].
  assert (Hs2 : s2 = Subscription.mk key tenant channel uid
                       (str_now rt (S (clock_reads w)))).
  { rewrite subscribe_to_channel_run in Hrun2. injection Hrun2 as <- _.
    by rewrite Hclock. }
  exists s1, w1, s2, w2, stored. split_and!; try done.
  { intros <-. by rewrite Hs2. }
  intros Hkeyed Hc Ht.
  assert (Hstored : subscriptions (db w2) !! key = Some stored).
  { assert (Hin : (key, stored)
                   ∈ filter (λ kv : string * Subscription.t, kv.1 = key)
                       (map_to_list (subscriptions (db w2))))
      by (unfold key, uid; rewrite Hrows; left).
    apply list_elem_of_filter in Hin as [_ Hin]. by apply elem_of_map_to_list. }
  assert (Hkeyed2 : ledger_keyed (db w2)).
  { rewrite Hdb. replace w1 with (subscribe_to_channel rt tenant channel user w).2
      by by rewrite Hrun1.
    by apply subscribe_to_channel_keeps_ledger_keyed. }
  destruct (ledger_rows_of_triple (db w2) tenant channel uid stored)
    as [Hone Hview]; try done.
  split; [|done]. by rewrite Hread, Hview.
Qed.

(** ** Token Registry *)

Lemma encodable_tokens id tenant l now :
  encodable (Tokens.mk id tenant l now) = forallb no_nul l.
Proof. reflexivity. Qed.

Lemma forallb_no_nul_union (l1 l2 : list string) :
  forallb no_nul l1 = true → forallb no_nul l2 = true →
  forallb no_nul (elements ((list_to_set l1 : gset string) ∪ list_to_set l2)) = true.
Proof.
  rewrite !forallb_elem_of. intros H1 H2 x Hx.
  apply elem_of_elements, elem_of_union in Hx as [Hx|Hx];
    apply elem_of_list_to_set in Hx; auto.
Qed.

(** What [save_user_token] does to the world. *)
Lemma save_user_token_run payload tenant user w :
  let key := AuthUser.preferred_username user +:+ ":" +:+ tenant in
  let now := str_now rt (clock_reads w) in
  let w1 := mkWorld (db w) (outbox w) (uuids_drawn w) (S (clock_reads w)) in
  let write (l : list string) :=
    if forallb no_nul l then
      (Returned tt,
       mkWorld (set_tokens (<[key := Tokens.mk key tenant l now]> (tokens (db w))) (db w))
         (outbox w) (uuids_drawn w) (S (clock_reads w)))
    else (Raised UntranslatableCharacterError, w1) in
  save_user_token rt payload tenant user w
  = match tokens (db w) !! key with
    | Some row =>
        if bool_decide
             ((list_to_set (TokenCreate.device_tokens payload) : gset string)
              ⊆ list_to_set (Tokens.device_tokens row))
        then (Returned tt, w1)
        else write (elements
                      ((list_to_set (Tokens.device_tokens row) : gset string)
                       ∪ list_to_set (TokenCreate.device_tokens payload)))
    | None => write (TokenCreate.device_tokens payload)
    end.
Proof.
  intros key now w1 write. unfold save_user_token, upsert_row. run_M. fold key.
  destruct (tokens (db w) !! key); simpl.
  - case_bool_decide; simpl; [done|]. subst write. simpl.
    rewrite encodable_tokens. by destruct (forallb no_nul _).
  - subst write. simpl. rewrite encodable_tokens. by destruct (forallb no_nul _).
Qed.


(** ** History Reader *)

#[local] Instance newer_first_trans : Transitive newer_first.
Proof. intros a b c Hab Hbc. unfold newer_first in *. by etrans. Qed.

#[local] Instance newer_first_total : Total newer_first.
Proof. intros a b. unfold newer_first. apply (total String.le). Qed.

Lemma newest_first_of_three (l : list Notification.t) n1 n2 n3 :
  StronglySorted newer_first l →
  l ≡ₚ [n1; n2; n3] →
  strict String.le (Notification.sent_at n1) (Notification.sent_at n2) →
  strict String.le (Notification.sent_at n2) (Notification.sent_at n3) →
  l = [n3; n2; n1].
Proof.
  intros Hsorted Hperm [H12 H21] [H23 H32].
  assert (H13 : String.le (Notification.sent_at n1) (Notification.sent_at n3))
    by by etrans.
  apply (StronglySorted_unique_strong newer_first); [|done| |].
  - intros x y Hx Hy Hxy Hyx. rewrite Hperm in Hx.
    assert (Heq : Notification.sent_at x = Notification.sent_at y)
      by by apply (anti_symm String.le).
    set_unfold. destruct Hx as [? | [? | [? | [] ] ] ]; destruct Hy as [? | [? | [? | [] ] ] ];
      subst; try done;
      exfalso;
      first [ by (apply H21; rewrite Heq) | by (apply H21; rewrite <-Heq)
            | by (apply H32; rewrite Heq) | by (apply H32; rewrite <-Heq) ].
  - repeat constructor; done.
  - rewrite Hperm. change [n3; n2; n1] with (reverse [n1; n2; n3]).
    by rewrite reverse_Permutation.
Qed.

Lemma elem_of_history_rows d tenant uid n :
  n ∈ select_where
        (λ n, bool_decide (Notification.tenant_id n = tenant)
              && bool_decide
                   (Notification.channel_id n
                    ∈ (Subscription.channel_id <$>
                         select_where
                           (λ s, bool_decide (Subscription.tenant_id s = tenant)
                                 && bool_decide (Subscription.user_id s = uid))
                           (subscriptions d)) ++ [uid]))
        (notifications d)
  ↔ in_history d tenant uid n.
Proof.
  unfold in_history.
  rewrite elem_of_select_where, andb_true_iff, !bool_decide_eq_true.
  rewrite elem_of_app, list_elem_of_singleton, list_elem_of_fmap.
  split.
  - intros (Hstored & Hte & [(s & Hch & Hs)|Hch]); split_and!; try done;
      [right|by left].
    apply elem_of_select_where in Hs as [Hs HP].
    apply andb_true_iff in HP as [?%bool_decide_eq_true ?%bool_decide_eq_true].
    by exists s.
  - intros (Hstored & Hte & [Hch|(s & Hs & Hst & Hsu & Hch)]); split_and!;
      try done; [by right|left].
    exists s. split; [done|]. apply elem_of_select_where. split; [done|].
    apply andb_true_iff. by split; apply bool_decide_eq_true.
Qed.

(** Where every row sits under its own id, a query returns no row twice. *)
Lemma NoDup_select_where d (P : Notification.t → bool) :
  notifications_keyed d → NoDup (select_where P (notifications d)).
Proof.
  intros Hkeyed. unfold select_where. apply NoDup_filter.
  apply NoDup_fmap_2_strong; [|apply NoDup_map_to_list].
  intros [k1 n1] [k2 n2] H1%elem_of_map_to_list H2%elem_of_map_to_list Heq.
  simpl in Heq. subst n2. f_equal.
  by rewrite <-(Hkeyed _ _ H1), <-(Hkeyed _ _ H2).
Qed.

(** C9. For a limit between 1 and 50 and no channel filter, the history
    read changes nothing and returns a page of at most [limit]
    notifications, newest first. Every notification on the page is stored,
    is of the tenant asked for, and is addressed to the user's own id or to
    a channel that a stored subscription of the user in that tenant names;
    every such notification is on the page, unless the page is full and
    holds none older than it. Where every notification is stored under its
    own id, no notification is on the page twice, and when the user's
    history is three notifications with strictly increasing [sent_at] and
    the limit is 2, the page is the two most recent, newest first. *)
Theorem list_notifications_history tenant user limit w :
  (1 ≤ limit ≤ 50)%Z →
  let uid := AuthUser.preferred_username user in
  ∃ page,
    list_notifications tenant None limit user w = (Returned page, w)
    ∧ length page ≤ Z.to_nat limit
    ∧ StronglySorted newer_first page
    ∧ (∀ n, n ∈ page → in_history (db w) tenant uid n)
    ∧ (∀ n, in_history (db w) tenant uid n →
         n ∈ page
         ∨ (length page = Z.to_nat limit ∧ ∀ m, m ∈ page → newer_first m n))
    ∧ (notifications_keyed (db w) → NoDup page)
    ∧ ∀ n1 n2 n3,
        notifications_keyed (db w) →
        (∀ n, in_history (db w) tenant uid n ↔ n ∈ [n1; n2; n3]) →
        strict String.le (Notification.sent_at n1) (Notification.sent_at n2) →
        strict String.le (Notification.sent_at n2) (Notification.sent_at n3) →
        limit = 2%Z →
        page = [n3; n2].
Proof.
  intros Hlimit uid.
  unfold list_notifications, limit_validate.
  assert (((1 <=? limit)%Z && (limit <=? 50)%Z) = true) as ->.
  { apply andb_true_iff. split; apply Z.leb_le; lia. }
  run_M. fold uid.
  set (rows := select_where _ (notifications (db w))).
  assert (Hrows : ∀ n, n ∈ rows ↔ in_history (db w) tenant uid n)
    by (intros n; apply elem_of_history_rows).
  assert (Hsorted : StronglySorted newer_first (merge_sort newer_first rows))
    by (apply StronglySorted_merge_sort; apply _).
  set (sorted := merge_sort newer_first rows) in *.
  assert (Hperm : sorted ≡ₚ rows) by apply merge_sort_Permutation.
  exists (take (Z.to_nat limit) sorted). split; [done|]. split_and!.
  - rewrite length_take. lia.
  - rewrite <-(take_drop (Z.to_nat limit) sorted) in Hsorted.
    by apply StronglySorted_app_1_l in Hsorted.
  - intros n Hn%subseteq_take. apply Hrows. by rewrite <-Hperm.
  - intros n Hn%Hrows. rewrite <-Hperm in Hn.
    rewrite <-(take_drop (Z.to_nat limit) sorted) in Hn, Hsorted.
    apply elem_of_app in Hn as [Hn|Hn]; [by left|right]. split.
    + rewrite length_take.
      destruct (decide (Z.to_nat limit ≤ length sorted)); [lia|].
      rewrite drop_ge in Hn by lia. by apply elem_of_nil in Hn.
    + intros m Hm. by eapply StronglySorted_app_1_elem_of.
  - intros Hkeyed.
    assert (Hnodup : NoDup rows) by by apply NoDup_select_where.
    rewrite <-Hperm, <-(take_drop (Z.to_nat limit) sorted) in Hnodup.
    by apply NoDup_app in Hnodup as [? _].
  - intros n1 n2 n3 Hkeyed Hthree [H12 H21] [H23 H32] ->.
    assert (H13 : ¬ String.le (Notification.sent_at n3) (Notification.sent_at n1)).
    { intros H31. apply H21. by etrans. }
    assert (Hall : rows ≡ₚ [n1; n2; n3]).
    { apply NoDup_Permutation.
      - by apply NoDup_select_where.
      - repeat constructor; set_unfold; intros Hin.
        + destruct Hin as [<-|[<-|[]]]; [by apply H21|].
          apply H13. by etrans.
        + destruct Hin as [<-|[]]. by apply H32.
        + done.
      - intros n. by rewrite Hrows, Hthree. }
    rewrite (newest_first_of_three sorted n1 n2 n3); try done.
    by rewrite Hperm.
Qed.

(** An empty channel filter is no filter. *)
Lemma list_notifications_empty_filter tenant limit user w :
  list_notifications tenant (Some []) limit user w
  = list_notifications tenant None limit user w.
Proof. reflexivity. Qed.

(** With a channel filter the named channels stand in for the subscribed
    ones; the user's own id is still added. *)
Lemma list_notifications_with_filter tenant c cs limit user w :
  (1 ≤ limit ≤ 50)%Z →
  list_notifications tenant (Some (c :: cs)) limit user w
  = (Returned
       (take (Z.to_nat limit)
          (merge_sort newer_first
             (select_where
                (λ n, bool_decide (Notification.tenant_id n = tenant)
                      && bool_decide (Notification.channel_id n
                                      ∈ (c :: cs) ++ [AuthUser.preferred_username user]))
                (notifications (db w))))), w).
Proof.
  intros Hlimit. unfold list_notifications, limit_validate.
  assert (((1 <=? limit)%Z && (limit <=? 50)%Z) = true) as ->; [|done].
  apply andb_true_iff. split; apply Z.leb_le; lia.
Qed.

(** A limit outside 1..50 does not reach the query. *)
Lemma list_notifications_limit_rejected tenant channel_ids limit user w :
  ¬ (1 ≤ limit ≤ 50)%Z →
  list_notifications tenant channel_ids limit user w
  = (Raised RequestValidationError, w).
Proof.
  intros Hlimit. unfold list_notifications, limit_validate.
  assert (((1 <=? limit)%Z && (limit <=? 50)%Z) = false) as ->; [|done].
  apply andb_false_iff.
  destruct (decide (1 ≤ limit)%Z); [right|left]; apply Z.leb_gt; lia.
Qed.

(** ** Fan-out Dispatcher *)

Lemma send_notification_no_tokens tenant channel msg save w :
  channel_tokens (db w) tenant channel = [] →
  send_notification tenant channel msg save w = (Returned tt, w).
Proof.
  intros Hnone. by rewrite send_notification_run, send_direct_notification_run, Hnone.
Qed.

(** A send that does not save leaves the database as it was. *)
Lemma send_notification_unsaved tenant channel msg w :
  db (send_notification tenant channel msg false w).2 = db w.
Proof.
  rewrite send_notification_run, send_direct_notification_run.
  destruct (channel_tokens _ _ _) as [|tok toks]; [done|].
  by destruct (over_limit (tok :: toks)).
Qed.

Lemma send_notification_saved tenant channel msg w tok toks :
  channel_tokens (db w) tenant channel = tok :: toks →
  over_limit (tok :: toks) = false →
  encodable msg = true →
  notifications (db w) !! Notification.id msg = None →
  send_notification tenant channel msg true w
  = (Returned tt,
     mkWorld (set_notifications (<[Notification.id msg := msg]> (notifications (db w))) (db w))
       (outbox w ++ [(tok :: toks, msg)]) (uuids_drawn w) (clock_reads w)).
Proof.
  intros Htoks Hfit Hclean Hfresh.
  rewrite send_notification_run, send_direct_notification_run, Htoks, Hfit.
  simpl. rewrite insert_notification_run, Hclean. simpl. by rewrite Hfresh.
Qed.

(** One send, whatever its outcome: the counters stay, the outbox grows
    by at most the one message with the channel's batch, and the database
    is the old one or the old one with the message stored under its id,
    which was free, after the message went out. *)
Lemma send_notification_effects tenant channel msg save w :
  let w' := (send_notification tenant channel msg save w).2 in
  let batch := channel_tokens (db w) tenant channel in
  uuids_drawn w' = uuids_drawn w ∧ clock_reads w' = clock_reads w
  ∧ (outbox w' = outbox w ∨ (batch ≠ [] ∧ outbox w' = outbox w ++ [(batch, msg)]))
  ∧ (db w' = db w
     ∨ (notifications (db w) !! Notification.id msg = None
        ∧ db w' = set_notifications
                    (<[Notification.id msg := msg]> (notifications (db w))) (db w))).
Proof.
  intros w' batch. subst w'.
  rewrite send_notification_run, send_direct_notification_run. fold batch.
  destruct batch as [|tok toks] eqn:Hbatch; simpl; [by auto|].
  destruct (over_limit (tok :: toks)); simpl; [by auto|].
  destruct save; simpl; [|by auto 6].
  rewrite insert_notification_run.
  destruct (encodable msg); simpl; [|by auto 6].
  destruct (notifications (db w) !! Notification.id msg) eqn:Hid; simpl; by auto 6.
Qed.

Lemma channel_tokens_set_notifications t d tenant channel :
  channel_tokens (set_notifications t d) tenant channel
  = channel_tokens d tenant channel.
Proof. reflexivity. Qed.

Lemma dispatches_set_notifications payload tenant user t d u c cs :
  dispatches rt payload tenant user (set_notifications t d) u c cs
  = dispatches rt payload tenant user d u c cs.
Proof.
  revert u c. induction cs as [|ch cs IH]; intros u c; simpl; [done|].
  by rewrite IH.
Qed.

Lemma record_all_app ms1 ms2 t :
  record_all (ms1 ++ ms2) t = record_all ms2 (record_all ms1 t).
Proof. unfold record_all. apply foldl_app. Qed.

Lemma batches_fit_cons d tenant c cs :
  batches_fit d tenant (c :: cs) = true ↔
  over_limit (channel_tokens d tenant c) = false ∧ batches_fit d tenant cs = true.
Proof.
  unfold batches_fit. simpl. by rewrite andb_true_iff, negb_true_iff.
Qed.

Lemma send_each_run payload tenant user cs last w :
  uuids_fresh rt w →
  batches_fit (db w) tenant cs = true →
  no_nul (NotificationCreate.title payload) = true →
  no_nul (NotificationCreate.body payload) = true →
  let sent := dispatches rt payload tenant user (db w) (uuids_drawn w) (clock_reads w) cs in
  send_each rt payload tenant user cs last w
  = (Returned (last_message rt payload tenant user (uuids_drawn w) (clock_reads w) cs last),
     mkWorld (set_notifications (record_all sent (notifications (db w))) (db w))
       (outbox w ++ sent) (uuids_drawn w + length cs) (clock_reads w + length cs)).
Proof.
  intros Hfresh Hfit Htitle Hbody. revert last w Hfresh Hfit.
  induction cs as [|c cs IH]; intros last w [Hinj Hfresh] Hfit; simpl.
  { unfold record_all. simpl. rewrite app_nil_r, !Nat.add_0_r.
    by destruct w as [[] ? ? ?]. }
  apply batches_fit_cons in Hfit as [Hfit Hrest].
  unfold new_Notification. run_M.
  set (msg := Notification.mk _ _ _ _ _ _ _).
  set (w1 := mkWorld (db w) (outbox w) (S (uuids_drawn w)) (S (clock_reads w))).
  change (loop_message rt payload tenant user (uuids_drawn w) (clock_reads w) c) with msg.
  destruct (channel_tokens (db w) tenant c) as [|tok toks] eqn:Htoks.
  - rewrite (send_notification_no_tokens _ _ _ _ w1) by done.
    rewrite IH; [|split; [done|]; intros n Hn; apply Hfresh; simpl in *; lia|done].
    simpl. do 2 f_equal; lia.
  - rewrite (send_notification_saved _ _ _ w1 tok toks);
      [|done|done| |apply Hfresh; lia].
    2:{ rewrite encodable_notification. subst msg. simpl. by rewrite Htitle, Hbody. }
    rewrite IH.
    + simpl. rewrite dispatches_set_notifications.
      rewrite <-app_assoc. simpl. do 2 f_equal; lia.
    + split; [done|]. intros n Hn. simpl in *.
      rewrite lookup_insert_ne; [apply Hfresh; lia|].
      intros Heq%Hinj. lia.
    + done.
Qed.

(** The loop, whatever its outcome: what it hands to Firebase are
    dispatches of its targets, and it changes no table but the
    notifications. *)
Lemma send_each_outbox payload tenant user cs last w :
  let w' := (send_each rt payload tenant user cs last w).2 in
  ∃ sent,
    outbox w' = outbox w ++ sent
    ∧ (∀ x, x ∈ sent →
         x ∈ dispatches rt payload tenant user (db w) (uuids_drawn w)
               (clock_reads w) cs)
    ∧ ∃ t, db w' = set_notifications t (db w).
Proof.
  revert last w. induction cs as [|c cs IH]; intros last w; simpl.
  { exists []. rewrite app_nil_r. split_and!; [done|by intros x ?%elem_of_nil|].
    exists (notifications (db w)). by destruct (db w). }
  unfold new_Notification. run_M.
  set (msg := Notification.mk _ _ _ _ _ _ _).
  set (w1 := mkWorld (db w) (outbox w) (S (uuids_drawn w)) (S (clock_reads w))).
  change (loop_message rt payload tenant user (uuids_drawn w) (clock_reads w) c) with msg.
  pose proof (send_notification_effects tenant c msg true w1) as Hstep.
  destruct (send_notification tenant c msg true w1) as [[[]|e] w2] eqn:Hsend;
    simpl in Hstep; destruct Hstep as (Hu & Ht & Hout & Hdb).
  - destruct (IH (Some msg) w2) as (sent & Hsent & Hin & t & Ht2).
    assert (Hdisp : dispatches rt payload tenant user (db w2) (uuids_drawn w2)
                      (clock_reads w2) cs
                    = dispatches rt payload tenant user (db w) (S (uuids_drawn w))
                        (S (clock_reads w)) cs).
    { rewrite Hu, Ht. destruct Hdb as [->|[_ ->]]; [done|].
      apply dispatches_set_notifications. }
    rewrite Hdisp in Hin.
    destruct Hout as [Hout|[Hne Hout]].
    + exists sent. rewrite Hsent, Hout. split_and!; [done| |].
      * intros x Hx. apply elem_of_app. right. by apply Hin.
      * destruct Hdb as [Hdb|[_ Hdb]]; rewrite Ht2, Hdb; by eexists.
    + exists ((channel_tokens (db w) tenant c, msg) :: sent).
      rewrite Hsent, Hout, <-app_assoc. split_and!; [done| |].
      * intros x [->|Hx]%elem_of_cons; apply elem_of_app; [left|right; by apply Hin].
        destruct (channel_tokens (db w) tenant c); [done|]. by left.
      * destruct Hdb as [Hdb|[_ Hdb]]; rewrite Ht2, Hdb; by eexists.
  - destruct Hout as [Hout|[Hne Hout]].
    + exists []. rewrite app_nil_r. simpl. split_and!; [done|by intros x ?%elem_of_nil|].
      destruct Hdb as [->|[_ ->]]; [exists (notifications (db w)); by destruct (db w)|].
      by eexists.
    + exists [(channel_tokens (db w) tenant c, msg)]. simpl. split_and!; [done| |].
      * intros x ->%list_elem_of_singleton. apply elem_of_app. left.
        destruct (channel_tokens (db w) tenant c); [done|]. by left.
      * destruct Hdb as [->|[_ ->]]; [exists (notifications (db w)); by destruct (db w)|].
        by eexists.
Qed.

(** The loop keeps the UUIDs still to be drawn unused, whatever its
    outcome. *)
Lemma send_each_keeps_uuids_fresh payload tenant user cs last w :
  uuids_fresh rt w →
  uuids_fresh rt (send_each rt payload tenant user cs last w).2.
Proof.
  revert last w. induction cs as [|c cs IH]; intros last w [Hinj Hfresh]; simpl.
  { by split. }
  unfold new_Notification. run_M.
  set (msg := Notification.mk _ _ _ _ _ _ _).
  set (w1 := mkWorld (db w) (outbox w) (S (uuids_drawn w)) (S (clock_reads w))).
  pose proof (send_notification_effects tenant c msg true w1) as Hstep.
  assert (Hfresh2 : uuids_fresh rt (send_notification tenant c msg true w1).2).
  { simpl in Hstep. destruct Hstep as (Hu & _ & _ & Hdb).
    split; [done|]. intros n Hn. rewrite Hu in Hn. simpl in Hn.
    destruct Hdb as [->|[_ ->]]; simpl.
    - apply Hfresh. lia.
    - rewrite lookup_insert_ne; [apply Hfresh; lia|]. intros ?%Hinj. lia. }
  destruct (send_notification tenant c msg true w1) as [[[]|e] w2]; simpl in *.
  - by apply IH.
  - done.
Qed.

(** What the stored notifications look like after recording the dispatches
    of a run that starts with [u] UUIDs drawn. *)
Lemma record_all_dispatches payload tenant user d cs :
  Inj (=) (=) (str_uuid1 rt) →
  ∀ u t (tbl : gmap string Notification.t),
    (∀ n, u ≤ n → tbl !! str_uuid1 rt n = None) →
    let sent := dispatches rt payload tenant user d u t cs in
    (∀ i c, cs !! i = Some c →
       record_all sent tbl !! str_uuid1 rt (u + i)
       = match channel_tokens d tenant c with
         | [] => None
         | _ :: _ => Some (loop_message rt payload tenant user (u + i) (t + i) c)
         end)
    ∧ (∀ k, (∀ i, i < length cs → k ≠ str_uuid1 rt (u + i)) →
         record_all sent tbl !! k = tbl !! k)
    ∧ size (record_all sent tbl) = size tbl + length sent
    ∧ length sent
      = length (filter (λ c, channel_tokens d tenant c ≠ []) cs).
Proof.
  intros Hinj. induction cs as [|c cs IH]; intros u t tbl Hfresh; simpl.
  { split_and!; try done; unfold record_all; simpl; lia. }
  set (msg := loop_message rt payload tenant user u t c).
  set (tbl1 := match channel_tokens d tenant c with
               | [] => tbl
               | _ :: _ => <[str_uuid1 rt u := msg]> tbl
               end).
  assert (Hfresh1 : ∀ n, S u ≤ n → tbl1 !! str_uuid1 rt n = None).
  { intros n Hn. subst tbl1. destruct (channel_tokens d tenant c).
    - apply Hfresh. lia.
    - rewrite lookup_insert_ne; [apply Hfresh; lia|]. intros ?%Hinj. lia. }
  assert (Hrec : record_all
            (match channel_tokens d tenant c with
             | [] => []
             | tok :: toks => [(tok :: toks, msg)]
             end ++ dispatches rt payload tenant user d (S u) (S t) cs) tbl
          = record_all (dispatches rt payload tenant user d (S u) (S t) cs) tbl1).
  { rewrite record_all_app. subst tbl1. by destruct (channel_tokens d tenant c). }
  rewrite Hrec.
  destruct (IH (S u) (S t) tbl1 Hfresh1) as (Hhit & Hother & Hsize & Hlen).
  split_and!.
  - intros [|i] c' Hc'; simpl in Hc'.
    + injection Hc' as <-. rewrite Nat.add_0_r. rewrite Hother.
      * subst tbl1. destruct (channel_tokens d tenant c).
        -- apply Hfresh. lia.
        -- by rewrite lookup_insert_eq, Nat.add_0_r.
      * intros i _ ?%Hinj. lia.
    + specialize (Hhit i c' Hc').
      by replace (u + S i) with (S u + i) by lia;
         replace (t + S i) with (S t + i) by lia.
  - intros k Hk. rewrite Hother.
    + subst tbl1. destruct (channel_tokens d tenant c); [done|].
      rewrite lookup_insert_ne; [done|]. intros Heq.
      apply (Hk 0); [simpl; lia|]. by rewrite Nat.add_0_r.
    + intros i Hi. replace (S u + i) with (u + S i) by lia. apply Hk. lia.
  - rewrite Hsize, length_app. subst tbl1.
    destruct (channel_tokens d tenant c); simpl; [lia|].
    rewrite map_size_insert_None by (apply Hfresh; lia). lia.
  - rewrite length_app, Hlen.
    destruct (channel_tokens d tenant c) eqn:Htoks.
    + by rewrite filter_cons_False by (by rewrite Htoks; intros ?).
    + rewrite filter_cons_True by (by rewrite Htoks). done.
Qed.

Lemma elem_of_select_id_any {V} (ids : list string) (t : gmap string V) v :
  v ∈ select_id_any ids t ↔ ∃ k, k ∈ ids ∧ t !! k = Some v.
Proof.
  unfold select_id_any. rewrite list_elem_of_fmap. split.
  - intros [[k v'] [-> [Hk Hin%elem_of_map_to_list]%list_elem_of_filter]]. eauto.
  - intros (k & Hk & Hv). exists (k, v). split; [done|].
    apply list_elem_of_filter. split; [done|]. by apply elem_of_map_to_list.
Qed.

Lemma elem_of_concat {A} (x : A) (ls : list (list A)) :
  x ∈ concat ls ↔ ∃ l, x ∈ l ∧ l ∈ ls.
Proof.
  induction ls as [|l ls IH]; simpl.
  - split; [by intros ?%elem_of_nil|]. by intros (l & _ & ?%elem_of_nil).
  - rewrite elem_of_app, IH. split.
    + intros [?|(l' & ? & ?)]; [exists l|exists l']; split; try done;
        [by left|by right].
    + intros (l' & Hx & [->|?]%elem_of_cons); [by left|right; eauto].
Qed.

(** The batch of a channel holds exactly the tokens of the token records of
    the users subscribed to that very channel. *)
Lemma elem_of_channel_tokens d tenant channel tok :
  tok ∈ channel_tokens d tenant channel ↔
  ∃ s row,
    (∃ k, subscriptions d !! k = Some s)
    ∧ Subscription.tenant_id s = tenant
    ∧ Subscription.channel_id s = channel
    ∧ tokens d !! (Subscription.user_id s +:+ ":" +:+ tenant) = Some row
    ∧ tok ∈ Tokens.device_tokens row.
Proof.
  unfold channel_tokens.
  set (P := λ s, bool_decide (Subscription.tenant_id s = tenant)
                 && bool_decide (Subscription.channel_id s = channel)).
  assert (HP : ∀ s, s ∈ select_where P (subscriptions d) ↔
                    (∃ k, subscriptions d !! k = Some s)
                    ∧ Subscription.tenant_id s = tenant
                    ∧ Subscription.channel_id s = channel).
  { intros s. rewrite elem_of_select_where. unfold P.
    rewrite andb_true_iff, !bool_decide_eq_true. tauto. }
  destruct (select_where P (subscriptions d)) as [|s0 rows] eqn:Hrows.
  - split; [by intros ?%elem_of_nil|].
    intros (s & row & Hs & Ht & Hc & _). 
    assert (Hin : s ∈ @nil Subscription.t) by (by apply HP).
    by apply elem_of_nil in Hin.
  - rewrite <-Hrows in *. clear Hrows. rewrite elem_of_concat. split.
    + intros (toks & Htok & Hin).
      apply list_elem_of_fmap in Hin as (row & -> & Hin).
      apply elem_of_select_id_any in Hin as (k & Hk & Hrow).
      apply list_elem_of_fmap in Hk as (s & -> & Hs).
      apply HP in Hs as (Hs & Ht & Hc). by exists s, row.
    + intros (s & row & Hs & Ht & Hc & Hrow & Htok).
      exists (Tokens.device_tokens row). split; [done|].
      apply list_elem_of_fmap. exists row. split; [done|].
      apply elem_of_select_id_any. eexists. split; [|done].
      apply list_elem_of_fmap. exists s. split; [done|]. by apply HP.
Qed.


(** *** The dispatcher never reads the channels table *)

Lemma ignores_channels_ret {A} (a : A) : ignores_channels (mret a).
Proof. by intros cs w. Qed.

Lemma ignores_channels_bind {A B} (m : M A) (k : A → M B) :
  ignores_channels m → (∀ a, ignores_channels (k a)) →
  ignores_channels (m ≫= k).
Proof.
  intros Hm Hk cs w. unfold mbind, M_bind, bind. rewrite Hm.
  destruct (m w) as [[a|e] w1]; simpl; [apply Hk|done].
Qed.

Lemma ignores_channels_new_Notification tenant channel title body sent_by :
  ignores_channels (new_Notification rt tenant channel title body sent_by).
Proof. by intros cs w. Qed.

Lemma ignores_channels_send_notification tenant channel msg save :
  ignores_channels (send_notification tenant channel msg save).
Proof.
  intros cs w. rewrite !send_notification_run, !send_direct_notification_run.
  change (channel_tokens (db (with_channels cs w)) tenant channel)
    with (channel_tokens (db w) tenant channel).
  destruct (channel_tokens (db w) tenant channel) as [|tok toks]; simpl; [done|].
  destruct (over_limit (tok :: toks)); simpl; [done|].
  destruct save; simpl; [|done]. rewrite !insert_notification_run.
  destruct (encodable msg); simpl; [|done].
  by destruct (notifications (db w) !! Notification.id msg).
Qed.

Lemma ignores_channels_send_each payload tenant user channel_ids msg :
  ignores_channels (send_each rt payload tenant user channel_ids msg).
Proof.
  revert msg. induction channel_ids as [|c cs IH]; intros msg; simpl.
  - apply ignores_channels_ret.
  - apply ignores_channels_bind; [apply ignores_channels_new_Notification|].
    intros m. apply ignores_channels_bind;
      [apply ignores_channels_send_notification|]. intros _. apply IH.
Qed.

Lemma ignores_channels_send_notifications payload tenant user :
  ignores_channels (send_notifications rt payload tenant user).
Proof.
  unfold send_notifications.
  destruct (NotificationCreate.channel_ids payload) as [|c cs] eqn:Hcs;
    [by intros ??|].
  apply ignores_channels_bind; [apply ignores_channels_ret|].
  intros []; simpl; [|by intros ??].
  apply ignores_channels_bind;
    [apply (ignores_channels_send_each payload tenant user (c :: cs) None)|].
  by intros [m|] ??.
Qed.

(** *** What the loop can raise *)

Lemma send_notification_raises tenant channel msg save w e w' :
  send_notification tenant channel msg save w = (Raised e, w') →
  send_failure e.
Proof.
  rewrite send_notification_run, send_direct_notification_run. unfold send_failure.
  destruct (channel_tokens (db w) tenant channel) as [|tok toks]; simpl; [done|].
  destruct (over_limit (tok :: toks)); simpl; [intros [= <- _]; auto|].
  destruct save; simpl; [|done]. rewrite insert_notification_run.
  destruct (encodable msg); simpl; [|intros [= <- _]; auto].
  destruct (notifications _ !! Notification.id msg); simpl; [|done].
  intros [= <- _]; auto.
Qed.

Lemma send_each_raises payload tenant user cs last w e w' :
  send_each rt payload tenant user cs last w = (Raised e, w') →
  send_failure e.
Proof.
  revert last w. induction cs as [|c cs IH]; intros last w; simpl; [done|].
  unfold new_Notification. run_M.
  destruct (send_notification _ _ _ _ _) as [[[]|e1] w1] eqn:Hsend.
  - apply IH.
  - intros [= <- _]. by eapply send_notification_raises.
Qed.

Lemma send_each_returns payload tenant user cs last w r w' :
  cs ≠ [] ∨ is_Some last →
  send_each rt payload tenant user cs last w = (Returned r, w') →
  is_Some r.
Proof.
  revert last w. induction cs as [|c cs IH]; intros last w Hsome; simpl.
  - destruct Hsome as [?|?]; [done|]. by intros [= <- _].
  - unfold new_Notification. run_M.
    destruct (send_notification _ _ _ _ _) as [[[]|e1] w1] eqn:Hsend; [|done].
    apply IH. right. by eexists.
Qed.

Lemma send_notifications_raises payload tenant user w e w' :
  send_notifications rt payload tenant user w = (Raised e, w') →
  (e = HTTPException 400 "At least one channel id is required."
   ∧ NotificationCreate.channel_ids payload = [] ∧ w' = w)
  ∨ send_failure e.
Proof.
  unfold send_notifications.
  destruct (NotificationCreate.channel_ids payload) as [|c cs] eqn:Hcs.
  - intros [= <- <-]. by left.
  - pose proof (send_each_returns payload tenant user (c :: cs) None w) as Hret.
    pose proof (send_each_raises payload tenant user (c :: cs) None w) as Hraise.
    set (loop := send_each rt payload tenant user (c :: cs) None) in *.
    run_M. destruct (loop w) as [[[m|]|e1] w1]; simpl.
    + done.
    + destruct (Hret None w1) as [? [=]]; [by left|done].
    + intros [= <- _]. right. by eapply Hraise.
Qed.

(** The loop is the whole of the request after the two checks. *)
Lemma send_notifications_world payload tenant user w :
  NotificationCreate.channel_ids payload ≠ [] →
  (send_notifications rt payload tenant user w).2
  = (send_each rt payload tenant user (NotificationCreate.channel_ids payload) None w).2.
Proof.
  intros Hcs. unfold send_notifications.
  destruct (NotificationCreate.channel_ids payload) as [|c cs] eqn:E; [done|].
  set (loop := send_each rt payload tenant user (c :: cs) None) in *.
  run_M. by destruct (loop w) as [[[m|]|e1] w1].
Qed.

Lemma last_message_is_Some payload tenant user u t cs last :
  cs ≠ [] ∨ is_Some last →
  is_Some (last_message rt payload tenant user u t cs last).
Proof.
  revert u t last. induction cs as [|c cs IH]; intros u t last Hsome; simpl.
  - by destruct Hsome.
  - apply IH. right. by eexists.
Qed.

(** The whole request under fresh UUIDs, with batches that fit a multicast
    message and a clean title and body: it returns, and the world it
    leaves is the old one with the dispatches handed over and recorded. *)
Lemma send_notifications_run payload tenant user w :
  uuids_fresh rt w →
  NotificationCreate.channel_ids payload ≠ [] →
  batches_fit (db w) tenant (NotificationCreate.channel_ids payload) = true →
  no_nul (NotificationCreate.title payload) = true →
  no_nul (NotificationCreate.body payload) = true →
  let cs := NotificationCreate.channel_ids payload in
  let sent := dispatches rt payload tenant user (db w) (uuids_drawn w)
                (clock_reads w) cs in
  ∃ msg,
    send_notifications rt payload tenant user w
    = (Returned msg,
       mkWorld (set_notifications (record_all sent (notifications (db w))) (db w))
         (outbox w ++ sent) (uuids_drawn w + length cs)
         (clock_reads w + length cs)).
Proof.
  intros Hfresh Hcs Hfit Htitle Hbody cs sent. subst sent cs.
  unfold send_notifications.
  destruct (NotificationCreate.channel_ids payload) as [|c cs] eqn:E; [done|].
  pose proof (send_each_run payload tenant user (c :: cs) None w Hfresh Hfit
                Htitle Hbody) as Hrun.
  destruct (last_message_is_Some payload tenant user (uuids_drawn w)
              (clock_reads w) (c :: cs) None) as [m Hm]; [by left|].
  rewrite Hm in Hrun. cbv zeta in Hrun.
  set (loop := send_each rt payload tenant user (c :: cs) None) in *.
  unfold mbind, M_bind, bind, is_tenant_admin, mret, M_ret, ret.
  change (negb true) with false. cbv beta iota. rewrite Hrun. by exists m.
Qed.

Lemma with_child_channels_send_each b payload tenant user cs last w :
  send_each rt (with_child_channels b payload) tenant user cs last w
  = send_each rt payload tenant user cs last w.
Proof.
  revert last w. induction cs as [|c cs IH]; intros last w; simpl; [done|].
  unfold new_Notification. run_M.
  destruct (send_notification _ _ _ _ _) as [[[]|e1] w1]; [apply IH|done].
Qed.

Lemma elem_of_dispatches payload tenant user d u t cs toks m :
  (toks, m) ∈ dispatches rt payload tenant user d u t cs →
  ∃ i c, cs !! i = Some c
         ∧ m = loop_message rt payload tenant user (u + i) (t + i) c
         ∧ toks = channel_tokens d tenant c ∧ toks ≠ [].
Proof.
  revert u t. induction cs as [|c cs IH]; intros u t; simpl.
  { by intros ?%elem_of_nil. }
  intros [Hin|Hin]%elem_of_app.
  - exists 0, c. rewrite !Nat.add_0_r.
    destruct (channel_tokens d tenant c) as [|tok toks'] eqn:Htoks.
    + by apply elem_of_nil in Hin.
    + by apply list_elem_of_singleton in Hin as [= -> ->].
  - apply IH in Hin as (i & c' & Hc' & -> & -> & Hne).
    exists (S i), c'. split_and!; try done. f_equal; lia.
Qed.

Lemma dispatches_elem_of payload tenant user d u t cs i c :
  cs !! i = Some c →
  channel_tokens d tenant c ≠ [] →
  (channel_tokens d tenant c, loop_message rt payload tenant user (u + i) (t + i) c)
  ∈ dispatches rt payload tenant user d u t cs.
Proof.
  revert u t i. induction cs as [|c' cs IH]; intros u t [|i] Hc Hne;
    simpl in *; try done.
  - injection Hc as ->. rewrite !Nat.add_0_r. apply elem_of_app. left.
    destruct (channel_tokens d tenant c); [done|]. by apply list_elem_of_singleton.
  - apply elem_of_app. right.
    replace (u + S i) with (S u + i) by lia.
    replace (t + S i) with (S t + i) by lia. by apply IH.
Qed.

Lemma heartbeat_run settings w : db (heartbeat rt settings w).2 = db w.
Proof.
  unfold heartbeat, new_Notification. run_M.
  by rewrite send_notification_unsaved.
Qed.

Lemma heartbeats_loop_run settings turns w :
  db (heartbeats_loop rt settings turns w).2 = db w.
Proof.
  revert w. induction turns as [|turns IH]; intros w; simpl; [done|].
  run_M. pose proof (heartbeat_run settings w) as Hdb.
  destruct (heartbeat rt settings w) as [[[]|e] w1]; simpl in *; [|done].
  by rewrite IH.
Qed.


(** *** The four claims about channel-addressed sends *)




(** C4 as amended. The descendants option of the request is not read: the
    send does the same for both values of the flag, and the same whatever
    the channels table, where the parent edges live, holds. Whatever the
    outcome of the send, every message it hands to Firebase is addressed to
    one of the targets and carries the batch of that target, and every
    token in it belongs to a user subscribed to the target channel itself. *)
Theorem send_notifications_ignores_descendants payload tenant user w :
  (∀ b, send_notifications rt (with_child_channels b payload) tenant user w
        = send_notifications rt payload tenant user w)
  ∧ (∀ chans,
       send_notifications rt payload tenant user (with_channels chans w)
       = ((send_notifications rt payload tenant user w).1,
          with_channels chans (send_notifications rt payload tenant user w).2))
  ∧ (∃ sent,
       outbox (send_notifications rt payload tenant user w).2 = outbox w ++ sent
       ∧ ∀ toks m tok, (toks, m) ∈ sent → tok ∈ toks →
           Notification.channel_id m ∈ NotificationCreate.channel_ids payload
           ∧ toks = channel_tokens (db w) tenant (Notification.channel_id m)
           ∧ ∃ s row,
               (∃ k, subscriptions (db w) !! k = Some s)
               ∧ Subscription.tenant_id s = tenant
               ∧ Subscription.channel_id s = Notification.channel_id m
               ∧ tokens (db w) !! (Subscription.user_id s +:+ ":" +:+ tenant)
                 = Some row
               ∧ tok ∈ Tokens.device_tokens row).
Proof.
  split_and!.
  - intros b. unfold send_notifications. simpl.
    destruct (NotificationCreate.channel_ids payload) as [|c cs]; [done|].
    unfold mbind, M_bind, bind, is_tenant_admin, mret, M_ret, ret.
    change (negb true) with false. cbv beta iota.
    by rewrite (with_child_channels_send_each b payload tenant user (c :: cs) None w).
  - intros chans. apply ignores_channels_send_notifications.
  - destruct (decide (NotificationCreate.channel_ids payload = [])) as [Hnil|Hcs].
    { exists []. unfold send_notifications. rewrite Hnil. simpl.
      rewrite app_nil_r. split; [done|]. by intros toks m tok ?%elem_of_nil. }
    rewrite send_notifications_world by done.
    destruct (send_each_outbox payload tenant user
                (NotificationCreate.channel_ids payload) None w)
      as (sent & Hout & Hin & _).
    exists sent. split; [exact Hout|].
    intros toks m tok (i & c & Hc & -> & -> & _)%Hin%elem_of_dispatches Htok.
    simpl. split; [by eapply list_elem_of_lookup_2|]. split; [done|].
    by apply elem_of_channel_tokens.
Qed.

End Properties.

(** * Further properties of the handlers *)

Section Coverage.
Context (rt : Runtime).

#[local] Existing Instance newer_first_trans.
#[local] Existing Instance newer_first_total.

(** ** channels.py *)




(** X4. Deleting a channel does not stop the fan-out to it: the batch
    resolved for any channel is the same after the deletion, and a send
    does after the deletion what it did before. *)
Theorem deleted_channel_still_fans_out channel_id tenant user w
    target_tenant target msg save :
  let w' := (delete_channel channel_id tenant user w).2 in
  channel_tokens (db w') target_tenant target
  = channel_tokens (db w) target_tenant target
  ∧ (send_notification target_tenant target msg save w').1
    = (send_notification target_tenant target msg save w).1
  ∧ outbox (send_notification target_tenant target msg save w').2
    = outbox (send_notification target_tenant target msg save w).2
  ∧ notifications (db (send_notification target_tenant target msg save w').2)
    = notifications (db (send_notification target_tenant target msg save w).2).
Proof.
  intros w'.
  assert (Hw' : w' = with_channels (channels (db w')) w).
  { subst w'. unfold delete_channel. run_M.
    destruct (channels (db w) !! channel_id); simpl; [done|].
    by destruct w as [[] ? ? ?]. }
  rewrite Hw'. rewrite ignores_channels_send_notification. done.
Qed.

(** X5. [channels_init] returns, after it the channel "heartbeat" is
    stored, a second run changes nothing, a "heartbeat" row that was there
    is not overwritten, and no other row or table is touched. *)
Theorem channels_init_idempotent settings w :
  ∃ w1,
    channels_init rt settings w = (Returned tt, w1)
    ∧ is_Some (channels (db w1) !! "heartbeat")
    ∧ channels_init rt settings w1 = (Returned tt, w1)
    ∧ (is_Some (channels (db w) !! "heartbeat") → w1 = w)
    ∧ (∀ k, k ≠ "heartbeat" → channels (db w1) !! k = channels (db w) !! k)
    ∧ tokens (db w1) = tokens (db w)
    ∧ subscriptions (db w1) = subscriptions (db w)
    ∧ notifications (db w1) = notifications (db w)
    ∧ outbox w1 = outbox w.
Proof.
  unfold channels_init. run_M.
  destruct (channels (db w) !! "heartbeat") eqn:Hhb; simpl.
  - exists w. rewrite Hhb. by split_and!.
  - rewrite insert_row_fresh by done. simpl. eexists. split; [done|]. simpl.
    rewrite lookup_insert_eq. split_and!; try done.
    intros k Hk. by rewrite lookup_insert_ne.
Qed.

(** X6. The three handlers that write the channels table keep two
    invariants of it: no stored channel is its own parent, and every
    stored channel sits under an id made of the characters of the id
    pattern. *)
Theorem channel_writers_keep_invariants payload channel_id tenant user settings w :
  no_self_parent (db w) → channels_slugged (db w) →
  (no_self_parent (db (create_channel rt payload tenant user w).2)
   ∧ channels_slugged (db (create_channel rt payload tenant user w).2))
  ∧ (no_self_parent (db (delete_channel channel_id tenant user w).2)
     ∧ channels_slugged (db (delete_channel channel_id tenant user w).2))
  ∧ (no_self_parent (db (channels_init rt settings w).2)
     ∧ channels_slugged (db (channels_init rt settings w).2)).
Proof.
  intros Hparent Hslug. split_and!.
  - by apply create_channel_no_self_parent.
  - rewrite create_channel_outcome.
    destruct (ChannelCreate_validate payload) eqn:Hvalid; simpl; [|done].
    destruct (channels (db w) !! ChannelCreate.id payload); [done|].
    destruct (parent_missing payload (db w)); [done|].
    destruct (encodable _); [|done].
    intros k c. simpl. rewrite lookup_insert. case_decide as Hk; [|apply Hslug].
    intros _. subst k. unfold ChannelCreate_validate, matches_id_pattern in Hvalid.
    by apply andb_true_iff in Hvalid as [_ ?].
  - by apply delete_channel_no_self_parent.
  - unfold delete_channel. run_M.
    destruct (channels (db w) !! channel_id); simpl; [|done].
    intros k c. simpl. unfold delete_row. rewrite lookup_delete.
    case_decide; [done|]. apply Hslug.
  - by apply channels_init_no_self_parent.
  - unfold channels_init. run_M.
    destruct (channels (db w) !! "heartbeat") eqn:Hhb; simpl; [done|].
    rewrite insert_row_fresh by done. simpl. intros k c. simpl.
    rewrite lookup_insert. case_decide as Hk; [|apply Hslug].
    intros _. by subst k.
Qed.

(** ** subscriptions.py *)

Lemma select_where_nil {V} (P : V → bool) (t : gmap string V) :
  (∀ k v, t !! k = Some v → P v = false) → select_where P t = [].
Proof.
  intros Hnone. destruct (select_where P t) as [|v l] eqn:Hsel; [done|].
  assert (Hv : v ∈ select_where P t) by (rewrite Hsel; left).
  apply elem_of_select_where in Hv as [[k Hk] HP].
  by rewrite (Hnone k v Hk) in HP.
Qed.

Lemma subscribe_to_channel_stores tenant channel user w :
  ∃ stored,
    subscriptions (db (subscribe_to_channel rt tenant channel user w).2)
    !! subscription_key (AuthUser.preferred_username user) channel tenant
    = Some stored.
Proof.
  simpl. unfold insert_or_ignore, subscription_key.
  destruct (subscriptions (db w) !! _) eqn:Hrow; simpl; [eauto|].
  rewrite lookup_insert_eq. eauto.
Qed.

Lemma subscribe_to_channel_delete tenant channel user w :
  delete (subscription_key (AuthUser.preferred_username user) channel tenant)
    (subscriptions (db (subscribe_to_channel rt tenant channel user w).2))
  = delete (subscription_key (AuthUser.preferred_username user) channel tenant)
      (subscriptions (db w)).
Proof.
  simpl. unfold insert_or_ignore, subscription_key.
  destruct (subscriptions (db w) !! _); simpl; [done|].
  by rewrite delete_insert_eq.
Qed.

Lemma unsubscribe_from_channel_run tenant channel user w stored :
  ledger_keyed (db w) →
  all_slug_chars channel = true → all_slug_chars tenant = true →
  subscriptions (db w)
  !! subscription_key (AuthUser.preferred_username user) channel tenant
  = Some stored →
  unsubscribe_from_channel tenant channel user w
  = (Returned tt,
     mkWorld
       (set_subscriptions
          (delete (subscription_key (AuthUser.preferred_username user) channel tenant)
             (subscriptions (db w))) (db w))
       (outbox w) (uuids_drawn w) (clock_reads w)).
Proof.
  intros Hkeyed Hc Ht Hstored.
  destruct (ledger_rows_of_triple (db w) tenant channel
              (AuthUser.preferred_username user) stored) as [Hrows Hview]; try done.
  assert (Hid : Subscription.id stored
                = subscription_key (AuthUser.preferred_username user) channel tenant)
    by (by injection Hview).
  unfold unsubscribe_from_channel. run_M. rewrite Hrows. simpl.
  unfold delete_row. by rewrite Hid.
Qed.

Lemma unsubscribe_from_channel_absent tenant channel user w :
  ledger_keyed (db w) →
  subscriptions (db w)
  !! subscription_key (AuthUser.preferred_username user) channel tenant = None →
  unsubscribe_from_channel tenant channel user w
  = (Raised (HTTPException 404 "Subscription not found."), w).
Proof.
  intros Hkeyed Hnone. apply unsubscribe_from_channel_not_found.
  apply select_where_nil. intros k s Hks.
  destruct (Hkeyed k s Hks) as (_ & Hk & _).
  destruct (decide (Subscription.tenant_id s = tenant)) as [Hte|Hte];
    [|by rewrite (bool_decide_eq_false_2 _ Hte)].
  destruct (decide (Subscription.channel_id s = channel)) as [Hch|Hch];
    [|by rewrite (bool_decide_eq_false_2 _ Hch), andb_false_r].
  destruct (decide (Subscription.user_id s = AuthUser.preferred_username user))
    as [Hu|Hu]; [|by rewrite (bool_decide_eq_false_2 _ Hu), andb_false_r].
  rewrite Hk, Hu, Hch, Hte in Hks. congruence.
Qed.

(** X7. In a keyed ledger, subscribing and then unsubscribing (channel and
    tenant ids made of id characters) returns and leaves the ledger without
    the row of the triple and otherwise as before: the database is the old
    one when the user was not subscribed. Unsubscribing once more is a 404
    that changes nothing. *)
Theorem subscribe_then_unsubscribe tenant channel user w :
  ledger_keyed (db w) →
  all_slug_chars channel = true → all_slug_chars tenant = true →
  let key := subscription_key (AuthUser.preferred_username user) channel tenant in
  let w1 := (subscribe_to_channel rt tenant channel user w).2 in
  ∃ w2,
    unsubscribe_from_channel tenant channel user w1 = (Returned tt, w2)
    ∧ subscriptions (db w2) = delete key (subscriptions (db w))
    ∧ (subscriptions (db w) !! key = None → db w2 = db w)
    ∧ channels (db w2) = channels (db w)
    ∧ tokens (db w2) = tokens (db w)
    ∧ notifications (db w2) = notifications (db w)
    ∧ outbox w2 = outbox w
    ∧ unsubscribe_from_channel tenant channel user w2
      = (Raised (HTTPException 404 "Subscription not found."), w2).
Proof.
  intros Hkeyed Hc Ht key w1.
  assert (Hkeyed1 : ledger_keyed (db w1))
    by by apply subscribe_to_channel_keeps_ledger_keyed.
  destruct (subscribe_to_channel_stores tenant channel user w) as [stored Hstored].
  pose proof (subscribe_to_channel_delete tenant channel user w) as Hdel.
  fold key w1 in Hdel, Hstored.
  assert (Hrest : channels (db w1) = channels (db w) ∧ tokens (db w1) = tokens (db w)
                  ∧ notifications (db w1) = notifications (db w)
                  ∧ outbox w1 = outbox w) by done.
  destruct Hrest as (Hch & Htok & Hnot & Hout).
  clearbody w1.
  eexists. split; [by eapply unsubscribe_from_channel_run|].
  simpl. fold key. rewrite Hdel. split_and!; try done.
  - intros Hnone. rewrite delete_id by done. unfold set_subscriptions.
    rewrite Hch, Htok, Hnot. by destruct (db w).
  - apply unsubscribe_from_channel_absent.
    + intros k s. simpl. rewrite <-Hdel. rewrite lookup_delete.
      case_decide; [done|]. apply Hkeyed1.
    + simpl. fold key. apply lookup_delete_eq.
Qed.

(** X8. [list_subscriptions] changes nothing and returns exactly the stored
    subscriptions of the user in the tenant; in a keyed ledger a channel
    just subscribed to is among them. *)
Theorem list_subscriptions_after_subscribe tenant channel user w :
  ledger_keyed (db w) →
  all_slug_chars channel = true → all_slug_chars tenant = true →
  let w1 := (subscribe_to_channel rt tenant channel user w).2 in
  ∃ l,
    list_subscriptions tenant user w1 = (Returned l, w1)
    ∧ (∀ s, s ∈ l ↔ (∃ k, subscriptions (db w1) !! k = Some s)
                     ∧ Subscription.tenant_id s = tenant
                     ∧ Subscription.user_id s = AuthUser.preferred_username user)
    ∧ ∃ s, s ∈ l ∧ Subscription.channel_id s = channel.
Proof.
  intros Hkeyed Hc Ht w1.
  set (uid := AuthUser.preferred_username user).
  set (key := subscription_key uid channel tenant).
  assert (Hkeyed1 : ledger_keyed (db w1))
    by by apply subscribe_to_channel_keeps_ledger_keyed.
  destruct (subscribe_to_channel_stores tenant channel user w) as [stored Hstored].
  destruct (ledger_rows_of_triple (db w1) tenant channel uid stored)
    as [_ Hview]; try done.
  injection Hview as Hid Hte Hch Hu.
  assert (Hiff : ∀ s, s ∈ select_where
                        (λ s, bool_decide (Subscription.tenant_id s = tenant)
                              && bool_decide (Subscription.user_id s = uid))
                        (subscriptions (db w1))
                 ↔ (∃ k, subscriptions (db w1) !! k = Some s)
                   ∧ Subscription.tenant_id s = tenant
                   ∧ Subscription.user_id s = uid).
  { intros s. rewrite elem_of_select_where, andb_true_iff, !bool_decide_eq_true.
    tauto. }
  eexists. split; [reflexivity|]. split; [exact Hiff|].
  exists stored. split; [|done]. apply Hiff. eauto.
Qed.


(** ** notifications.py and heartbeats.py *)


Lemma elem_of_take_or_full {A} (x : A) (l : list A) n :
  x ∈ l → x ∈ take n l ∨ length (take n l) = n.
Proof.
  intros Hx. rewrite <-(take_drop n l) in Hx.
  apply elem_of_app in Hx as [?|Hx]; [by left|right].
  rewrite length_take. destruct (decide (n ≤ length l)); [lia|].
  rewrite drop_ge in Hx by lia. by apply elem_of_nil in Hx.
Qed.



Lemma heartbeat_step settings w :
  let batch := channel_tokens (db w) (Settings.DEFAULT_TENANT settings) "heartbeat" in
  heartbeat rt settings w
  = if over_limit batch then
      (Raised ValueError,
       mkWorld (db w) (outbox w) (S (uuids_drawn w)) (S (S (clock_reads w))))
    else
      (Returned tt,
       mkWorld (db w)
         (outbox w ++ match batch with
                      | [] => []
                      | tok :: toks =>
                          [(tok :: toks,
                            heartbeat_message rt settings (uuids_drawn w) (clock_reads w))]
                      end)
         (S (uuids_drawn w)) (S (S (clock_reads w)))).
Proof.
  intros batch. unfold heartbeat, new_Notification, heartbeat_message. run_M.
  rewrite (send_notification_run), (send_direct_notification_run). simpl.
  fold batch. destruct batch as [|tok toks]; simpl.
  - by rewrite app_nil_r.
  - by destruct (over_limit (tok :: toks)).
Qed.

(** The heartbeat loop, by the size of the heartbeat batch. *)
Lemma heartbeats_loop_world settings turns w :
  let batch := channel_tokens (db w) (Settings.DEFAULT_TENANT settings) "heartbeat" in
  heartbeats_loop rt settings turns w
  = if over_limit batch then
      match turns with
      | O => (Returned tt, w)
      | S _ =>
          (Raised ValueError,
           mkWorld (db w) (outbox w) (S (uuids_drawn w)) (S (S (clock_reads w))))
      end
    else
      (Returned tt,
       mkWorld (db w)
         (outbox w
          ++ heartbeat_dispatches rt settings (db w) (uuids_drawn w) (clock_reads w) turns)
         (uuids_drawn w + turns) (clock_reads w + 2 * turns)).
Proof.
  intros batch. subst batch.
  destruct (over_limit (channel_tokens (db w) _ "heartbeat")) eqn:Hover.
  { destruct turns as [|turns]; [done|]. simpl. run_M.
    rewrite heartbeat_step. cbv zeta. by rewrite Hover. }
  revert w Hover. induction turns as [|turns IH]; intros w Hover; simpl.
  - rewrite app_nil_r, !Nat.add_0_r. by destruct w.
  - run_M. rewrite heartbeat_step. cbv zeta. rewrite Hover.
    rewrite IH by done. simpl. rewrite <-app_assoc.
    do 2 f_equal; lia.
Qed.


(** X14. UUID freshness is kept along the way: after a channel-addressed
    send, a direct send or any number of heartbeat turns, no UUID still to
    be drawn names a stored notification. *)
Theorem senders_keep_uuids_fresh payload direct tenant user settings turns w :
  uuids_fresh rt w →
  uuids_fresh rt (send_notifications rt payload tenant user w).2
  ∧ uuids_fresh rt (send_direct_notifications rt direct tenant user w).2
  ∧ uuids_fresh rt (heartbeats_loop rt settings turns w).2.
Proof.
  intros Hfresh. split_and!.
  - destruct (NotificationCreate.channel_ids payload) as [|c cs] eqn:Hcs.
    { unfold send_notifications. by rewrite Hcs. }
    rewrite send_notifications_world by (by rewrite Hcs).
    by apply send_each_keeps_uuids_fresh.
  - destruct Hfresh as [Hinj Hfresh]. unfold send_direct_notifications.
    destruct (truthy _); simpl; [|by split].
    unfold new_Notification, firebase_send. run_M.
    rewrite get_user_tokens_run.
    destruct (match tokens (db w) !! _ with Some _ => _ | None => _ end)
      as [|tok toks]; simpl; [by split|].
    destruct (over_limit (tok :: toks)); simpl.
    { split; [done|]. intros n Hn. simpl in *. apply Hfresh. lia. }
    rewrite insert_notification_run.
    destruct (encodable _); simpl.
    2:{ split; [done|]. intros n Hn. simpl in *. apply Hfresh. lia. }
    rewrite Hfresh by lia. simpl.
    split; [done|]. intros n Hn. simpl in *.
    rewrite lookup_insert_ne; [apply Hfresh; lia|]. intros ?%Hinj. lia.
  - destruct Hfresh as [Hinj Hfresh]. split; [done|]. intros n Hn.
    rewrite heartbeats_loop_run. apply Hfresh.
    rewrite heartbeats_loop_world in Hn. cbv zeta in Hn.
    destruct (over_limit _); [destruct turns|]; simpl in Hn; lia.
Qed.

(** ** tenants.py and the routes *)

(** X15. On a table that holds neither the configured default tenant nor
    the key "jamboree26", [tenants_init] returns and stores the default
    tenant under the key "jamboree26", whatever its configured id. With
    the default setting a second run changes nothing and the tenant
    resolves; with any other [DEFAULT_TENANT] the configured id still does
    not resolve (404) and a second run raises on the taken key. *)
Theorem tenants_init_stores_under_fixed_key settings s :
  tenants s !! Settings.DEFAULT_TENANT settings = None →
  tenants s !! "jamboree26" = None →
  ∃ s1,
    tenants_init rt settings s = (Returned tt, s1)
    ∧ (∃ t, tenants s1 !! "jamboree26" = Some t
            ∧ Tenant.id t = Settings.DEFAULT_TENANT settings
            ∧ Tenant.name t = Settings.DEFAULT_TENANT_NAME settings)
    ∧ (∀ k, k ≠ "jamboree26" → tenants s1 !! k = tenants s !! k)
    ∧ db (world s1) = db (world s)
    ∧ outbox (world s1) = outbox (world s)
    ∧ (Settings.DEFAULT_TENANT settings = "jamboree26" →
       tenants_init rt settings s1 = (Returned tt, s1)
       ∧ get_tenant_id "jamboree26" s1 = (Returned "jamboree26", s1))
    ∧ (Settings.DEFAULT_TENANT settings ≠ "jamboree26" →
       get_tenant_id (Settings.DEFAULT_TENANT settings) s1
       = (Raised (HTTPException 404 "Tenant not found."), s1)
       ∧ (tenants_init rt settings s1).1 = Raised UniqueViolationError).
Proof.
  intros Hdefault Hkey. unfold tenants_init, get_tenant_id, select_by_id.
  rewrite Hdefault, insert_row_fresh by done.
  eexists. split; [done|]. simpl. rewrite lookup_insert_eq. split_and!; try done.
  - by eexists.
  - intros k Hk. by rewrite lookup_insert_ne.
  - intros Heq. rewrite Heq. by rewrite !lookup_insert_eq.
  - intros Hne. rewrite lookup_insert_ne, Hdefault by done.
    split; [done|].
    by rewrite insert_row_taken by (done || (rewrite lookup_insert_eq; eauto)).
Qed.


(** X17. Where every stored channel and tenant sits under an id made of id
    characters, the subscribe and unsubscribe routes keep the ledger
    keyed: every stored subscription sits under the key of its own
    triple. *)
Theorem routes_keep_ledger_keyed tenant_id channel_id user s :
  ledger_keyed (db (world s)) →
  channels_slugged (db (world s)) →
  tenants_slugged s →
  ledger_keyed
    (db (world (subscribe_to_channel_route rt tenant_id channel_id user s).2))
  ∧ ledger_keyed
      (db (world (unsubscribe_from_channel_route tenant_id channel_id user s).2)).
Proof.
  intros Hkeyed Hchannels Htenants. split.
  - unfold subscribe_to_channel_route, get_tenant_id, in_world, get_channel_id.
    unfold mbind, T_bind, T_bind_def, select_by_id.
    destruct (tenants s !! tenant_id) eqn:Ht; [|done].
    unfold M_bind, bind, mret, M_ret, ret, raise, get_db.
    destruct (channels (db (world s)) !! channel_id) eqn:Hc; [|done].
    cbv beta iota.
    change (world {| tenants := tenants s; world := world s |}) with (world s).
    destruct (subscribe_to_channel rt tenant_id channel_id user (world s))
      as [[sub|e] w'] eqn:Hrun; simpl;
      replace w' with (subscribe_to_channel rt tenant_id channel_id user (world s)).2
        by (by rewrite Hrun);
      apply subscribe_to_channel_keeps_ledger_keyed; eauto.
  - unfold unsubscribe_from_channel_route, get_tenant_id, in_world, get_channel_id.
    unfold mbind, T_bind, T_bind_def, select_by_id.
    destruct (tenants s !! tenant_id) eqn:Ht; [|done].
    unfold M_bind, bind, mret, M_ret, ret, raise, get_db.
    destruct (channels (db (world s)) !! channel_id) eqn:Hc; [|done].
    cbv beta iota.
    change (world {| tenants := tenants s; world := world s |}) with (world s).
    destruct (unsubscribe_from_channel tenant_id channel_id user (world s))
      as [[sub|e] w'] eqn:Hrun; simpl;
      replace w' with (unsubscribe_from_channel tenant_id channel_id user (world s)).2
        by (by rewrite Hrun);
      by apply unsubscribe_from_channel_keeps_ledger_keyed.
Qed.

End Coverage.

(** * The properties at the sample data *)

Lemma sample_uuid_inj : Inj (=) (=) (str_uuid1 sample_rt).
Proof. intros n m Heq. simpl in Heq. by apply (inj (String.app "uuid-")), (inj pretty) in Heq. Qed.

Lemma uuids_fresh_no_notifications w :
  notifications (db w) = ∅ → uuids_fresh sample_rt w.
Proof. intros Hempty. split; [apply sample_uuid_inj|]. intros n _. by rewrite Hempty. Qed.

(** The two refusals of the outside world at the sample data: a channel
    name with U+0000 is refused by the column after the clock was read, and
    a batch of 501 tokens is refused by the multicast message, with
    nothing sent and nothing stored. *)
Lemma create_channel_with_nul_is_refused :
  create_channel sample_rt (ChannelCreate.mk "z" nul_text None true false None)
    "t" alice empty_world
  = (Raised UntranslatableCharacterError, mkWorld (mkDatabase ∅ ∅ ∅ ∅) [] 0 1).
Proof. vm_compute. reflexivity. Qed.

Lemma send_to_crowded_channel_is_refused :
  length (channel_tokens (db crowded_world) "t" "crowd") = 501
  ∧ (send_notifications sample_rt to_crowd "t" alice crowded_world).1
    = Raised ValueError
  ∧ outbox (after (send_notifications sample_rt to_crowd "t" alice) crowded_world)
    = []
  ∧ notifications
      (db (after (send_notifications sample_rt to_crowd "t" alice) crowded_world))
    = ∅.
Proof. split_and!; vm_compute; reflexivity. Qed.




(** C4, counterexample: in the tree a → b → c, a send to a with the
    descendants option set reaches alice's device only; bob's, on the child
    b, is resolved for b but not sent. *)
Lemma descendants_are_not_reached :
  NotificationCreate.include_child_channels to_a = true
  ∧ Channel.parent_id <$> channels (db tree_world) !! "b" = Some (Some "a")
  ∧ Channel.parent_id <$> channels (db tree_world) !! "c" = Some (Some "b")
  ∧ channel_tokens (db tree_world) "t" "b" = ["tok-bob"]
  ∧ channel_tokens (db tree_world) "t" "c" = ["tok-carol"]
  ∧ outbox (after (send_notifications sample_rt to_a "t" alice) tree_world)
    = [(["tok-alice"], sample_message "a" "uuid-0" "2026-01-01 10:00:00.100009")].
Proof. split_and!; vm_compute; reflexivity. Qed.


(** Registering a and b, then b and c, leaves exactly a, b and c. *)
Lemma register_ab_then_bc :
  token_set
    (db (after (save_user_token sample_rt (TokenCreate.mk ["b"; "c"]) "t" alice)
        (after (save_user_token sample_rt (TokenCreate.mk ["a"; "b"]) "t" alice)
           empty_world))) "t" "alice"
  = {[ "a"; "b"; "c" ]}.
Proof. vm_compute. reflexivity. Qed.

(** C10 at the sample data: creating b under the stored channel "quiet". *)
Lemma create_channel_never_self_parent_witness :
  ∃ data w',
    create_channel sample_rt (ChannelCreate.mk "b" "B" None true false (Some "quiet"))
      "t" alice quiet_world
    = (Returned data, w')
    ∧ Channel.parent_id data ≠ Some (Channel.id data).
Proof.
  destruct (create_channel sample_rt
              (ChannelCreate.mk "b" "B" None true false (Some "quiet")) "t" alice
              quiet_world) as [[data|e] w'] eqn:Hrun.
  - exists data, w'. split; [reflexivity|].
    by apply create_channel_never_self_parent in Hrun as (_ & _ & _ & _ & _ & ?).
  - vm_compute in Hrun. discriminate Hrun.
Defined.


(** The mixed sample: every notification sits under its own id, and the
    history of alice in tenant "t" is the first send to a, the direct send
    and the last send to a; the send to b, which she does not follow, and
    the send in tenant "u" are not part of it. *)
Lemma mixed_world_notifications_keyed : notifications_keyed (db mixed_world).
Proof.
  intros k n Hkn%elem_of_map_to_list. vm_compute in Hkn.
  repeat (apply elem_of_cons in Hkn as [[= -> ->]|Hkn]; [reflexivity|]).
  by apply elem_of_nil in Hkn.
Qed.

Lemma mixed_world_history_of_alice n :
  in_history (db mixed_world) "t" "alice" n
  ↔ n ∈ [Notification.mk "t" "a" "hi" "there" "alice" "uuid-0"
           "2026-01-01 10:00:00.100009";
         Notification.mk "t" "alice" "hi" "there" "bob" "uuid-2"
           "2026-01-01 10:00:00.100011";
         Notification.mk "t" "a" "hi" "there" "alice" "uuid-4"
           "2026-01-01 10:00:00.100015"].
Proof.
  split.
  - intros ([k Hk%elem_of_map_to_list] & Ht & Hc). vm_compute in Hk.
    repeat (apply elem_of_cons in Hk as [[= -> ->]|Hk];
            [first [ by repeat constructor | discriminate Ht | idtac ]|]);
      [|by apply elem_of_nil in Hk].
    destruct Hc as [Hc|(s & [k' Hs%elem_of_map_to_list] & Hst & Hsu & Hsc)];
      [discriminate Hc|].
    vm_compute in Hs.
    repeat (apply elem_of_cons in Hs as [[= -> ->]|Hs];
            [first [discriminate Hsu | discriminate Hsc]|]).
    by apply elem_of_nil in Hs.
  - set (s := Subscription.mk "alice@a:t" "t" "a" "alice" "2026-01-01 10:00:00.100003").
    assert (Hs : subscriptions (db mixed_world) !! "alice@a:t" = Some s)
      by (vm_compute; reflexivity).
    intros Hin.
    apply elem_of_cons in Hin. destruct Hin as [Heq|Hin].
    { subst n. split_and!; [exists "uuid-0"; vm_compute; reflexivity|reflexivity|].
      right. exists s. split; [by exists "alice@a:t"|]. by split_and!. }
    apply elem_of_cons in Hin. destruct Hin as [Heq|Hin].
    { subst n. split_and!; [exists "uuid-2"; vm_compute; reflexivity|reflexivity|].
      by left. }
    apply list_elem_of_singleton in Hin. subst n.
    split_and!; [exists "uuid-4"; vm_compute; reflexivity|reflexivity|].
    right. exists s. split; [by exists "alice@a:t"|]. by split_and!.
Qed.

(** C9 at the sample data: of the five stored notifications three make the
    history of alice in tenant "t", and a read with limit 2 gives the two
    most recent of them, newest first. *)
Lemma list_notifications_history_witness :
  (1 ≤ 2 ≤ 50)%Z
  ∧ size (notifications (db mixed_world)) = 5
  ∧ list_notifications "t" None 2 alice mixed_world
    = (Returned [Notification.mk "t" "a" "hi" "there" "alice" "uuid-4"
                   "2026-01-01 10:00:00.100015";
                 Notification.mk "t" "alice" "hi" "there" "bob" "uuid-2"
                   "2026-01-01 10:00:00.100011"],
       mixed_world).
Proof.
  split; [lia|]. split; [vm_compute; reflexivity|].
  destruct (list_notifications_history "t" alice 2 mixed_world)
    as (page & Hrun & _ & _ & _ & _ & _ & Hthree); [lia|].
  rewrite Hrun. f_equal. f_equal.
  apply (Hthree (Notification.mk "t" "a" "hi" "there" "alice" "uuid-0"
                   "2026-01-01 10:00:00.100009")).
  - exact mixed_world_notifications_keyed.
  - exact mixed_world_history_of_alice.
  - vm_compute. split; [exact I|intros []].
  - vm_compute. split; [exact I|intros []].
  - reflexivity.
Defined.



(** The ledger of the tree is keyed. *)
Lemma tree_world_ledger_keyed : ledger_keyed (db tree_world).
Proof.
  intros k s Hks%elem_of_map_to_list. vm_compute in Hks.
  repeat (apply elem_of_cons in Hks as [[= -> ->]|Hks];
          [by vm_compute|]).
  by apply elem_of_nil in Hks.
Qed.

(** C7, counterexample: alice follows a already; subscribing her once
    more changes nothing in the database, and returns a record that is not
    the stored one: it carries the time of this call. *)
Lemma resubscribing_returns_a_new_record :
  ∃ s stored,
    (subscribe_to_channel sample_rt "t" "a" alice tree_world).1 = Returned s
    ∧ db (after (subscribe_to_channel sample_rt "t" "a" alice) tree_world)
      = db tree_world
    ∧ subscriptions (db tree_world) !! "alice@a:t" = Some stored
    ∧ to_SubscriptionRead s = to_SubscriptionRead stored
    ∧ Subscription.created_at stored = "2026-01-01 10:00:00.100003"
    ∧ Subscription.created_at s = "2026-01-01 10:00:00.100009"
    ∧ s ≠ stored.
Proof.
  eexists _, _. split; [vm_compute; reflexivity|].
  split; [vm_compute; reflexivity|]. split; [vm_compute; reflexivity|].
  split; [reflexivity|]. split; [reflexivity|]. split; [reflexivity|].
  vm_compute. discriminate.
Qed.

Lemma tree_world_tokens_clean : tokens_clean (db tree_world).
Proof.
  intros k row Hk%elem_of_map_to_list. vm_compute in Hk.
  repeat (apply elem_of_cons in Hk as [[= -> ->]|Hk]; [reflexivity|]).
  by apply elem_of_nil in Hk.
Qed.


(** ** Further properties at the sample data *)

Lemma tree_world_no_self_parent : no_self_parent (db tree_world).
Proof.
  intros k c Hkc%elem_of_map_to_list. vm_compute in Hkc.
  repeat (apply elem_of_cons in Hkc as [[= -> ->]|Hkc];
          [by split; [|vm_compute; discriminate]|]).
  by apply elem_of_nil in Hkc.
Qed.

Lemma tree_world_channels_slugged : channels_slugged (db tree_world).
Proof.
  intros k c Hkc%elem_of_map_to_list. vm_compute in Hkc.
  repeat (apply elem_of_cons in Hkc as [[= -> ->]|Hkc]; [by vm_compute|]).
  by apply elem_of_nil in Hkc.
Qed.

Lemma sample_site_tenants_slugged : tenants_slugged sample_site.
Proof.
  intros k t Hk. unfold sample_site in Hk. simpl in Hk.
  by apply lookup_singleton_Some in Hk as [<- _].
Qed.



(** X6 at the sample data. *)
Lemma channel_writers_keep_invariants_witness :
  no_self_parent (db tree_world)
  ∧ channels_slugged (db tree_world)
  ∧ no_self_parent (db (create_channel sample_rt under_quiet "t" alice tree_world).2)
  ∧ channels_slugged (db (delete_channel "b" "t" alice tree_world).2).
Proof.
  split; [exact tree_world_no_self_parent|].
  split; [exact tree_world_channels_slugged|].
  destruct (channel_writers_keep_invariants sample_rt under_quiet "b" "t" alice
              default_settings tree_world tree_world_no_self_parent
              tree_world_channels_slugged)
    as ([H1 _] & [_ H2] & _).
  split; [exact H1|exact H2].
Defined.

(** X7 at the sample data: carol joins and leaves channel a. *)
Lemma subscribe_then_unsubscribe_witness :
  ledger_keyed (db tree_world)
  ∧ all_slug_chars "a" = true ∧ all_slug_chars "t" = true
  ∧ ∃ w2,
      unsubscribe_from_channel "t" "a" carol
        (subscribe_to_channel sample_rt "t" "a" carol tree_world).2
      = (Returned tt, w2)
      ∧ db w2 = db tree_world.
Proof.
  split; [exact tree_world_ledger_keyed|]. split; [reflexivity|].
  split; [reflexivity|].
  destruct (subscribe_then_unsubscribe sample_rt "t" "a" carol tree_world
              tree_world_ledger_keyed eq_refl eq_refl)
    as (w2 & Hrun & _ & Hsame & _).
  exists w2. split; [exact Hrun|]. apply Hsame. vm_compute. reflexivity.
Defined.

(** X8 at the sample data: after joining a, carol's list names a. *)
Lemma list_subscriptions_after_subscribe_witness :
  ledger_keyed (db tree_world)
  ∧ all_slug_chars "a" = true ∧ all_slug_chars "t" = true
  ∧ ∃ l s,
      (list_subscriptions "t" carol
         (subscribe_to_channel sample_rt "t" "a" carol tree_world).2).1
      = Returned l
      ∧ s ∈ l ∧ Subscription.channel_id s = "a".
Proof.
  split; [exact tree_world_ledger_keyed|]. split; [reflexivity|].
  split; [reflexivity|].
  destruct (list_subscriptions_after_subscribe sample_rt "t" "a" carol tree_world
              tree_world_ledger_keyed eq_refl eq_refl)
    as (l & Hrun & _ & s & Hs & Hch).
  exists l, s. rewrite Hrun. split; [reflexivity|]. split; [exact Hs|exact Hch].
Defined.




(** X14 at the sample data. *)
Lemma senders_keep_uuids_fresh_witness :
  uuids_fresh sample_rt tree_world
  ∧ uuids_fresh sample_rt
      (send_notifications sample_rt to_a "t" alice tree_world).2.
Proof.
  assert (Hfresh : uuids_fresh sample_rt tree_world)
    by (apply uuids_fresh_no_notifications; vm_compute; reflexivity).
  split; [exact Hfresh|].
  destruct (senders_keep_uuids_fresh sample_rt to_a to_alice "t" alice
              default_settings 3 tree_world Hfresh) as (H1 & _).
  exact H1.
Defined.

(** X15 at the sample data: with the default tenant set to "camp" the
    start-up code stores it under "jamboree26", and "camp" is not found. *)
Lemma tenants_init_stores_under_fixed_key_witness :
  tenants empty_site !! Settings.DEFAULT_TENANT camp_settings = None
  ∧ tenants empty_site !! "jamboree26" = None
  ∧ ∃ s1,
      tenants_init sample_rt camp_settings empty_site = (Returned tt, s1)
      ∧ get_tenant_id "camp" s1
        = (Raised (HTTPException 404 "Tenant not found."), s1).
Proof.
  split; [reflexivity|]. split; [reflexivity|].
  destruct (tenants_init_stores_under_fixed_key sample_rt camp_settings empty_site
              eq_refl eq_refl) as (s1 & Hrun & _ & _ & _ & _ & _ & Hcamp).
  exists s1. split; [exact Hrun|]. apply Hcamp. discriminate.
Defined.

(** X17 at the sample data. *)
Lemma routes_keep_ledger_keyed_witness :
  ledger_keyed (db (world sample_site))
  ∧ channels_slugged (db (world sample_site))
  ∧ tenants_slugged sample_site
  ∧ ledger_keyed
      (db (world (subscribe_to_channel_route sample_rt "t" "b" alice sample_site).2)).
Proof.
  split; [exact tree_world_ledger_keyed|].
  split; [exact tree_world_channels_slugged|].
  split; [exact sample_site_tenants_slugged|].
  destruct (routes_keep_ledger_keyed sample_rt "t" "b" alice sample_site
              tree_world_ledger_keyed tree_world_channels_slugged
              sample_site_tenants_slugged) as [H1 _].
  exact H1.
Defined.
